(** * caddypy: the client of Caddy's administrative API

    A shallow embedding of [caddypy/caddy.py] (class [Caddy]) and the
    properties of its request construction, payload normalisation and
    transport call.

    Python values are embedded as the inductive [PyVal]; text ([str]) and
    octets ([bytes]) are Rocq strings over the 8-bit characters of [ascii].
    Exceptions are explicit: a computation ends in [Return v] or
    [Raise e], or in [Beyond] where it leaves the embedded fragment of the
    Python runtime.  The network and the standard output are a trace of
    events threaded through the calls. *)

From Stdlib Require Import String Ascii List ZArith Bool Lia DecimalString.
Import ListNotations.
Open Scope string_scope.

(** ** Text *)

(** [str(n)] for a Python [int]. *)
Definition str_of_int (n : Z) : string := NilZero.string_of_int (Z.to_int n).

(** Membership of a character in a set of characters given as a string. *)
Fixpoint char_in (c : ascii) (chars : string) : bool :=
  match chars with
  | EmptyString => false
  | String d rest => Ascii.eqb c d || char_in c rest
  end.

(** [s.lstrip(chars)]: every leading character that belongs to [chars] is
    removed. *)
Fixpoint lstrip (chars s : string) : string :=
  match s with
  | EmptyString => EmptyString
  | String c rest => if char_in c chars then lstrip chars rest else s
  end.

(** [tpl.format(a1, ..., an)] for templates whose only replacement field is the
    automatic one, [{}]; every template of the module is of that kind and
    comes with as many arguments as it has fields. *)
Fixpoint format (tpl : string) (args : list string) : string :=
  match tpl with
  | EmptyString => EmptyString
  | String "{" (String "}" rest) =>
      match args with
      | a :: args' => a ++ format rest args'
      | [] => format rest []
      end
  | String c rest => String c (format rest args)
  end.

(** Truth value of an optional string: [None] and [''] are false. *)
Definition truthy (o : option string) : bool :=
  match o with
  | Some (String _ _) => true
  | _ => false
  end.

(** The string behind an argument that passed the truth test. *)
Definition the_str (o : option string) : string :=
  match o with
  | Some s => s
  | None => EmptyString
  end.

(** ** The client object *)

Record Caddy := Caddy_init {
  host : string;
  port : Z;
  protocol : string;
  headers_origin : option string
}.

Definition default_port : Z := 2019.
Definition default_protocol : string := "http".

(** [Caddy(host)] with the defaults of [__init__]. *)
Definition Caddy_default (h : string) : Caddy :=
  Caddy_init h default_port default_protocol None.

(** ** Location resolution *)

Definition _generate_url (self : Caddy) : string :=
  format "{}://{}:{}/" [protocol self; host self; str_of_int (port self)].

Definition _generate_url_by_path (self : Caddy)
    (path config_id : option string) : string :=
  let _url := _generate_url self in
  let _url :=
    if negb (truthy path) && negb (truthy config_id)
    then format "{}config/" [_url] else _url in
  let _url :=
    if truthy config_id
    then format "{}id/{}" [_url; the_str config_id] else _url in
  let _url :=
    if truthy path
    then format "{}/{}" [_url; lstrip "/" (the_str path)] else _url in
  _url.

(** ** Python values and outcomes *)

(** The values that reach the client: [None], booleans, integers, floats,
    text, octets, lists and dictionaries with text keys.  A float is
    denoted by a literal; rounding to binary64 is not part of the model,
    so two literals of one float are two values here, and a float is
    printed only when its literal is the text Python prints for it. *)
#[local] Set Warnings "-register-all".
Inductive PyVal : Type :=
| PNone
| PBool (b : bool)
| PInt (n : Z)
| PFloat (literal : string)
| PStr (s : string)
| PBytes (b : string)
| PList (items : list PyVal)
| PDict (entries : list (string * PyVal)).

Inductive pytype : Type :=
| NoneType | bool_t | int_t | float_t | str_t | bytes_t | list_t | dict_t.

(** [type(v)]. *)
Definition type (v : PyVal) : pytype :=
  match v with
  | PNone => NoneType
  | PBool _ => bool_t
  | PInt _ => int_t
  | PFloat _ => float_t
  | PStr _ => str_t
  | PBytes _ => bytes_t
  | PList _ => list_t
  | PDict _ => dict_t
  end.

Definition pytype_eqb (a b : pytype) : bool :=
  match a, b with
  | NoneType, NoneType | bool_t, bool_t | int_t, int_t | float_t, float_t
  | str_t, str_t | bytes_t, bytes_t | list_t, list_t | dict_t, dict_t => true
  | _, _ => false
  end.

(** [requests.Response], as far as the client looks at it. *)
Record Response := mkResponse {
  status_code : Z;
  content : string
}.

(** The exceptions that cross the client.  [JSONDecodeError] keeps the
    document it was raised for (its message and position are not tracked);
    [UnicodeDecodeError] is what decoding octets raises on malformed
    input; [HTTPError] keeps the response, hence its status code and body;
    [RequestException] stands for any failure of the connection itself. *)
Inductive exn : Type :=
| JSONDecodeError (doc : string)
| TypeError
| UnicodeDecodeError
| HTTPError (response : Response)
| RequestException.

(** Outcome of a call.  [Beyond] marks a run that leaves the fragment of
    the Python runtime embedded here (text outside the 8-bit characters,
    UTF-16 and UTF-32 input, a float whose printed form is not known, a
    scanner out of fuel); it is never caught and never mistaken for a
    Python exception. *)
Inductive result (A : Type) : Type :=
| Return (a : A)
| Raise (e : exn)
| Beyond.

Arguments Return {A} a.
Arguments Raise {A} e.
Arguments Beyond {A}.

Definition bind {A B} (c : result A) (k : A -> result B) : result B :=
  match c with
  | Return a => k a
  | Raise e => Raise e
  | Beyond => Beyond
  end.

Notation "x <- c ;; k" := (bind c (fun x => k))
  (at level 61, c at next level, right associativity).
Notation "' pat <- c ;; k" := (bind c (fun x => match x with pat => k end))
  (at level 61, pat pattern, c at next level, right associativity).

(** ** The [json] module *)

Module Json.

Local Open Scope char_scope.

(** [WHITESPACE_STR]: space, tab, line feed, carriage return. *)
Definition whitespace : string :=
  String " " (String "009" (String "010" (String "013" EmptyString))).

Definition skip_ws (s : string) : string := lstrip whitespace s.

Definition is_digit (c : ascii) : bool := ("0" <=? c) && (c <=? "9").

Fixpoint span (p : ascii -> bool) (s : string) : string * string :=
  match s with
  | EmptyString => (EmptyString, EmptyString)
  | String c rest =>
      if p c then let (a, b) := span p rest in (String c a, b)
      else (EmptyString, s)
  end.

Definition is_empty (s : string) : bool :=
  match s with EmptyString => true | _ => false end.

(** [s] without the prefix [p], when it starts with it. *)
Fixpoint strip_prefix (p s : string) : option string :=
  match p, s with
  | EmptyString, _ => Some s
  | String a p', String b s' => if a =? b then strip_prefix p' s' else None
  | String _ _, EmptyString => None
  end.

(** [NUMBER_RE]: an optional minus sign with either a single zero or a
    digit from 1 to 9 followed by digits; then, optionally, a dot with at
    least one digit; then, optionally, [e] or [E], an optional sign and at
    least one digit.  The result holds the three groups and the text left
    after the match. *)
Definition match_number (s : string)
  : option (string * string * string * string) :=
  let (sign, s1) :=
    match s with
    | String m r =>
        if m =? "-" then (String m EmptyString, r) else (EmptyString, s)
    | EmptyString => (EmptyString, s)
    end in
  let int_part :=
    match s1 with
    | String c r =>
        if c =? "0" then Some (String c EmptyString, r)
        else if is_digit c then
          let (ds, r') := span is_digit r in Some (String c ds, r')
        else None
    | EmptyString => None
    end in
  match int_part with
  | None => None
  | Some (digits, s2) =>
      let (frac, s3) :=
        match s2 with
        | String d r =>
            if d =? "." then
              let (ds, r') := span is_digit r in
              if is_empty ds then (EmptyString, s2) else (String d ds, r')
            else (EmptyString, s2)
        | EmptyString => (EmptyString, s2)
        end in
      let (exp, s4) :=
        match s3 with
        | String e r =>
            if (e =? "e") || (e =? "E") then
              let (sg, r1) :=
                match r with
                | String g r0 =>
                    if (g =? "-") || (g =? "+")
                    then (String g EmptyString, r0) else (EmptyString, r)
                | EmptyString => (EmptyString, r)
                end in
              let (ds, r2) := span is_digit r1 in
              if is_empty ds then (EmptyString, s3)
              else (String e (sg ++ ds), r2)
            else (EmptyString, s3)
        | EmptyString => (EmptyString, s3)
        end in
      Some ((sign ++ digits)%string, frac, exp, s4)
  end.

Definition digit_val (c : ascii) : Z := Z.of_N (N_of_ascii c) - 48.

Fixpoint digits_val (acc : Z) (s : string) : Z :=
  match s with
  | EmptyString => acc
  | String c rest => digits_val (10 * acc + digit_val c) rest
  end.

(** [int(s)] on the first group of [NUMBER_RE]. *)
Definition int_of_str (s : string) : Z :=
  match s with
  | String m r => if m =? "-" then - digits_val 0 r else digits_val 0 s
  | EmptyString => 0
  end.

Definition hex_val (c : ascii) : option N :=
  let n := N_of_ascii c in
  if is_digit c then Some (n - 48)%N
  else if ("a" <=? c) && (c <=? "f") then Some (n - 87)%N
  else if ("A" <=? c) && (c <=? "F") then Some (n - 55)%N
  else None.

(** The code point written by the four hexadecimal digits of a [\u]
    escape. *)
Definition decode_uXXXX (a b c d : ascii) : option N :=
  match hex_val a, hex_val b, hex_val c, hex_val d with
  | Some x, Some y, Some z, Some w => Some (((x * 16 + y) * 16 + z) * 16 + w)%N
  | _, _, _, _ => None
  end.

(** [BACKSLASH]: the one-character escapes. *)
Definition backslash (esc : ascii) : option ascii :=
  if esc =? "034" then Some "034"
  else if esc =? "\" then Some "\"
  else if esc =? "/" then Some "/"
  else if esc =? "b" then Some "008"
  else if esc =? "f" then Some "012"
  else if esc =? "n" then Some "010"
  else if esc =? "r" then Some "013"
  else if esc =? "t" then Some "009"
  else None.

Definition cons_chunk (c : ascii) (r : result (string * string))
  : result (string * string) :=
  '(t, rest) <- r ;; Return (String c t, rest).

(** [scanstring] in strict mode, started after the opening quote: the
    decoded text and what follows the closing quote.  An escape that
    denotes a code point from 256 on leaves the 8-bit model. *)
Fixpoint scanstring (doc s : string) : result (string * string) :=
  match s with
  | EmptyString => Raise (JSONDecodeError doc)
  | String c rest =>
      if c =? "034" then Return (EmptyString, rest)
      else if c =? "\" then
        match rest with
        | EmptyString => Raise (JSONDecodeError doc)
        | String esc rest' =>
            if esc =? "u" then
              match rest' with
              | String h1 (String h2 (String h3 (String h4 rest''))) =>
                  match decode_uXXXX h1 h2 h3 h4 with
                  | None => Raise (JSONDecodeError doc)
                  | Some uni =>
                      if (uni <? 256)%N
                      then cons_chunk (ascii_of_N uni) (scanstring doc rest'')
                      else Beyond
                  end
              | _ => Raise (JSONDecodeError doc)
              end
            else
              match backslash esc with
              | Some ch => cons_chunk ch (scanstring doc rest')
              | None => Raise (JSONDecodeError doc)
              end
        end
      else if c <? " " then Raise (JSONDecodeError doc)
      else cons_chunk c (scanstring doc rest)
  end.

(** [dict(pairs)]: a key seen again keeps its place and takes the new
    value. *)
Fixpoint dict_set (k : string) (v : PyVal) (d : list (string * PyVal))
  : list (string * PyVal) :=
  match d with
  | [] => [(k, v)]
  | (k', v') :: d' =>
      if String.eqb k k' then (k, v) :: d' else (k', v') :: dict_set k v d'
  end.

Definition dict_of_pairs (pairs : list (string * PyVal))
  : list (string * PyVal) :=
  fold_left (fun d kv => dict_set (fst kv) (snd kv) d) pairs [].

(** The scanner ([scan_once]) with the loops of [JSONArray] and
    [JSONObject].  [fuel] bounds the chain of calls; [array_items] starts
    at an element and holds the elements read so far in reverse,
    [object_items] starts after the opening quote of a key. *)
Fixpoint scan_once (fuel : nat) (doc s : string) {struct fuel}
  : result (PyVal * string) :=
  match fuel with
  | O => Beyond
  | S fuel =>
      match s with
      | EmptyString => Raise (JSONDecodeError doc)
      | String c rest =>
          if c =? "034" then
            '(t, r) <- scanstring doc rest ;; Return (PStr t, r)
          else if c =? "{" then
            match skip_ws rest with
            | String n r =>
                if n =? "}" then Return (PDict [], r)
                else if n =? "034" then object_items fuel doc r []
                else Raise (JSONDecodeError doc)
            | EmptyString => Raise (JSONDecodeError doc)
            end
          else if c =? "[" then
            match skip_ws rest with
            | String n r =>
                if n =? "]" then Return (PList [], r)
                else array_items fuel doc (String n r) []
            | EmptyString => array_items fuel doc EmptyString []
            end
          else
            match strip_prefix "null" s, strip_prefix "true" s,
                  strip_prefix "false" s with
            | Some r, _, _ => Return (PNone, r)
            | _, Some r, _ => Return (PBool true, r)
            | _, _, Some r => Return (PBool false, r)
            | None, None, None =>
                match match_number s with
                | Some (integer, frac, exp, r) =>
                    if is_empty frac && is_empty exp
                    then Return (PInt (int_of_str integer), r)
                    else Return (PFloat (integer ++ frac ++ exp), r)
                | None =>
                    match strip_prefix "NaN" s, strip_prefix "Infinity" s,
                          strip_prefix "-Infinity" s with
                    | Some r, _, _ => Return (PFloat "NaN", r)
                    | _, Some r, _ => Return (PFloat "Infinity", r)
                    | _, _, Some r => Return (PFloat "-Infinity", r)
                    | None, None, None => Raise (JSONDecodeError doc)
                    end
                end
            end
      end
  end

with array_items (fuel : nat) (doc s : string) (acc : list PyVal)
    {struct fuel} : result (PyVal * string) :=
  match fuel with
  | O => Beyond
  | S fuel =>
      '(v, r) <- scan_once fuel doc s ;;
      match skip_ws r with
      | String n r' =>
          if n =? "]" then Return (PList (rev (v :: acc)), r')
          else if n =? ","
          then array_items fuel doc (skip_ws r') (v :: acc)
          else Raise (JSONDecodeError doc)
      | EmptyString => Raise (JSONDecodeError doc)
      end
  end

with object_items (fuel : nat) (doc s : string)
    (pairs : list (string * PyVal)) {struct fuel}
  : result (PyVal * string) :=
  match fuel with
  | O => Beyond
  | S fuel =>
      '(key, r) <- scanstring doc s ;;
      match skip_ws r with
      | String n r1 =>
          if n =? ":" then
            '(v, r2) <- scan_once fuel doc (skip_ws r1) ;;
            let pairs := (pairs ++ [(key, v)])%list in
            match skip_ws r2 with
            | String m r3 =>
                if m =? "}" then Return (PDict (dict_of_pairs pairs), r3)
                else if m =? "," then
                  match skip_ws r3 with
                  | String q r4 =>
                      if q =? "034" then object_items fuel doc r4 pairs
                      else Raise (JSONDecodeError doc)
                  | EmptyString => Raise (JSONDecodeError doc)
                  end
                else Raise (JSONDecodeError doc)
            | EmptyString => Raise (JSONDecodeError doc)
            end
          else Raise (JSONDecodeError doc)
      | EmptyString => Raise (JSONDecodeError doc)
      end
  end.

(** The fuel of a run: on a chain of calls of the scanner at least every
    second one consumes a character ([decode_fuel] below: more fuel never
    changes the outcome). *)
Definition fuel_for (doc : string) : nat := 2 * String.length doc + 2.

(** [JSONDecoder.decode]: one value, white space around it, nothing else. *)
Definition decode (doc : string) : result PyVal :=
  '(obj, rest) <- scan_once (fuel_for doc) doc (skip_ws doc) ;;
  if is_empty (skip_ws rest) then Return obj
  else Raise (JSONDecodeError doc).

(** *** Octets to text *)

Inductive encoding : Type :=
| utf_8 | utf_8_sig | utf_16 | utf_16_be | utf_16_le
| utf_32 | utf_32_be | utf_32_le.

Definition BOM_UTF8 : string :=
  String "239" (String "187" (String "191" EmptyString)).
Definition BOM_UTF16_BE : string := String "254" (String "255" EmptyString).
Definition BOM_UTF16_LE : string := String "255" (String "254" EmptyString).
Definition BOM_UTF32_BE : string :=
  String "000" (String "000" (String "254" (String "255" EmptyString))).
Definition BOM_UTF32_LE : string :=
  String "255" (String "254" (String "000" (String "000" EmptyString))).

Definition starts_with (p s : string) : bool :=
  match strip_prefix p s with Some _ => true | None => false end.

Definition is_zero (c : ascii) : bool := (N_of_ascii c =? 0)%N.

(** [detect_encoding(b)]: the byte order marks first, then the places of
    the zero octets among the first four, or two. *)
Definition detect_encoding (b : string) : encoding :=
  if starts_with BOM_UTF32_BE b || starts_with BOM_UTF32_LE b then utf_32
  else if starts_with BOM_UTF16_BE b || starts_with BOM_UTF16_LE b
  then utf_16
  else if starts_with BOM_UTF8 b then utf_8_sig
  else
    match b with
    | String b0 (String b1 (String b2 (String b3 _))) =>
        if is_zero b0 then (if is_zero b1 then utf_32_be else utf_16_be)
        else if is_zero b1
        then (if is_zero b2 && is_zero b3 then utf_32_le else utf_16_le)
        else utf_8
    | String b0 (String b1 EmptyString) =>
        if is_zero b0 then utf_16_be
        else if is_zero b1 then utf_16_le
        else utf_8
    | _ => utf_8
    end.

(** A continuation octet, 80 to BF. *)
Definition is_cont (c : ascii) : bool :=
  let n := N_of_ascii c in (128 <=? n)%N && (n <? 192)%N.

(** The outcome after a step that Python completes with a result the
    model cannot hold: what follows still runs, so its exception is the
    outcome; otherwise the outcome is unknown. *)
Definition beyond_then {A B} (rest : result A) : result B :=
  match rest with
  | Raise e => Raise e
  | _ => Beyond
  end.

Definition cons_text (c : ascii) (r : result string) : result string :=
  t <- r ;; Return (String c t).

(** [b.decode('utf-8', 'surrogatepass')]: a malformed sequence anywhere
    raises [UnicodeDecodeError]; well-formed input decodes to its code
    points, which the model holds when all are below 256 (one octet, or
    two with the lead C2 or C3).  A sequence is well formed when its lead
    is below 80, or C2 to DF with one continuation, or E0 to EF with two
    (after E0 the first from A0 on), or F0 to F4 with three (after F0 the
    first from 90 on, after F4 the first below 90). *)
Fixpoint utf8_decode (b : string) : result string :=
  match b with
  | EmptyString => Return EmptyString
  | String c rest =>
      let n := N_of_ascii c in
      if (n <? 128)%N then cons_text c (utf8_decode rest)
      else if (194 <=? n)%N && (n <? 224)%N then
        match rest with
        | String c1 rest1 =>
            if is_cont c1 then
              if (n <? 196)%N then
                cons_text
                  (ascii_of_N ((n - 192) * 64 + (N_of_ascii c1 - 128)))
                  (utf8_decode rest1)
              else beyond_then (utf8_decode rest1)
            else Raise UnicodeDecodeError
        | EmptyString => Raise UnicodeDecodeError
        end
      else if (224 <=? n)%N && (n <? 240)%N then
        match rest with
        | String c1 (String c2 rest2) =>
            if is_cont c1 && is_cont c2
               && (negb (n =? 224)%N || (160 <=? N_of_ascii c1)%N)
            then beyond_then (utf8_decode rest2)
            else Raise UnicodeDecodeError
        | _ => Raise UnicodeDecodeError
        end
      else if (240 <=? n)%N && (n <? 245)%N then
        match rest with
        | String c1 (String c2 (String c3 rest3)) =>
            if is_cont c1 && is_cont c2 && is_cont c3
               && (negb (n =? 240)%N || (144 <=? N_of_ascii c1)%N)
               && (negb (n =? 244)%N || (N_of_ascii c1 <? 144)%N)
            then beyond_then (utf8_decode rest3)
            else Raise UnicodeDecodeError
        | _ => Raise UnicodeDecodeError
        end
      else Raise UnicodeDecodeError
  end.

(** [b.decode(detect_encoding(b), 'surrogatepass')].  UTF-8 is decoded,
    after its byte order mark if it has one; UTF-16 and UTF-32 input is
    outside the model. *)
Definition decode_octets (b : string) : result string :=
  match detect_encoding b with
  | utf_8 => utf8_decode b
  | utf_8_sig =>
      match strip_prefix BOM_UTF8 b with
      | Some rest => utf8_decode rest
      | None => utf8_decode b
      end
  | _ => Beyond
  end.

(** [json.loads(s)]. *)
Definition loads (s : PyVal) : result PyVal :=
  match s with
  | PStr t => decode t
  | PBytes b => t <- decode_octets b ;; decode t
  | _ => Raise TypeError
  end.

(** *** Encoding *)

Definition hex_digit (n : N) : ascii :=
  if (n <? 10)%N then ascii_of_N (48 + n) else ascii_of_N (87 + n).

(** One character under [ESCAPE_ASCII]: the short escapes of [ESCAPE_DCT],
    printable ASCII as it is, anything else as [\u00xx]. *)
Definition escape_char (c : ascii) : string :=
  if c =? "034" then String "\" (String "034" EmptyString)
  else if c =? "\" then "\\"
  else if c =? "010" then "\n"
  else if c =? "013" then "\r"
  else if c =? "009" then "\t"
  else if c =? "008" then "\b"
  else if c =? "012" then "\f"
  else if (" " <=? c) && (c <=? "~") then String c EmptyString
  else
    let n := N_of_ascii c in
    ("\u00" ++ String (hex_digit (n / 16)) (String (hex_digit (n mod 16))
                                                  EmptyString))%string.

Fixpoint escape (s : string) : string :=
  match s with
  | EmptyString => EmptyString
  | String c rest => (escape_char c ++ escape rest)%string
  end.

(** [encode_basestring_ascii]. *)
Definition encode_basestring_ascii (s : string) : string :=
  String "034" (escape s ++ String "034" EmptyString).

(** The number of leading characters of [s] equal to [c], and whether
    [s] ends in [c]. *)
Fixpoint leading (c : ascii) (s : string) : nat :=
  match s with
  | String d rest => if d =? c then S (leading c rest) else O
  | EmptyString => O
  end.

Fixpoint ends_in (c : ascii) (s : string) : bool :=
  match s with
  | EmptyString => false
  | String d EmptyString => d =? c
  | String _ rest => ends_in c rest
  end.

(** The literals that [float.__repr__] prints back as they are: digits,
    a dot, digits, with an optional minus sign; no zero in front of the
    integer part unless it is the single digit 0, none at the end of the
    fraction unless it is the single digit 0; at most 15 significant
    digits; and, below 1, at most three zeros after the dot (from 0.0001
    on, where the exponent notation is not yet used). *)
Definition plain_float (literal : string) : bool :=
  let body :=
    match literal with
    | String m r => if m =? "-" then r else literal
    | EmptyString => literal
    end in
  let (int_part, r) := span is_digit body in
  match r with
  | String d r' =>
      let (frac, r'') := span is_digit r' in
      let zero := String "0" EmptyString in
      (d =? ".") && is_empty r''
      && negb (is_empty int_part) && negb (is_empty frac)
      && (String.eqb int_part zero || (leading "0" int_part =? 0)%nat)
      && (String.eqb frac zero || negb (ends_in "0" frac))
      && (if String.eqb int_part zero
          then String.eqb frac zero
               || ((leading "0" frac <=? 3)%nat
                   && (String.length frac - leading "0" frac <=? 15)%nat)
          else if String.eqb frac zero
               then (String.length int_part <=? 15)%nat
               else (String.length int_part + String.length frac <=? 15)%nat)
  | EmptyString => false
  end.

(** [float.__repr__] as [json.dumps] uses it, on the literal of a float:
    the three constants, and the literals above; the printed form of any
    other literal is outside the model. *)
Definition float_repr (literal : string) : result string :=
  if String.eqb literal "NaN" || String.eqb literal "Infinity"
     || String.eqb literal "-Infinity" || plain_float literal
  then Return literal else Beyond.

(** Two steps in a row, first exception first.  A first step that is
    [Beyond] has a result in Python, so the second still runs. *)
Definition both {A B C} (first : result A) (second : result B)
    (f : A -> B -> C) : result C :=
  match first with
  | Return a => b <- second ;; Return (f a b)
  | Raise e => Raise e
  | Beyond => beyond_then second
  end.

(** [json.dumps(obj)] with the default separators, on the values of
    [PyVal]: octets are not serialisable. *)
Fixpoint dumps (obj : PyVal) : result string :=
  match obj with
  | PNone => Return "null"%string
  | PBool true => Return "true"%string
  | PBool false => Return "false"%string
  | PInt n => Return (str_of_int n)
  | PFloat literal => float_repr literal
  | PStr s => Return (encode_basestring_ascii s)
  | PBytes _ => Raise TypeError
  | PList items =>
      parts <-
        (fix each (l : list PyVal) : result (list string) :=
           match l with
           | [] => Return []
           | x :: l' => both (dumps x) (each l') cons
           end) items ;;
      Return ("[" ++ String.concat ", " parts ++ "]")%string
  | PDict entries =>
      parts <-
        (fix each (l : list (string * PyVal)) : result (list string) :=
           match l with
           | [] => Return []
           | (k, x) :: l' =>
               both (dumps x) (each l')
                 (fun sx sl =>
                    (encode_basestring_ascii k ++ ": " ++ sx)%string :: sl)
           end) entries ;;
      Return ("{" ++ String.concat ", " parts ++ "}")%string
  end.

End Json.

(** ** Payload normalisation *)

(** [try: json.loads(config)] with the handler of [_prepare_config_data]:
    only [JSONDecodeError] is caught, and it is raised again, with the
    same content, unless the input is a [str]. *)
Definition _prepare_config_data (self : Caddy) (config : PyVal)
  : result PyVal :=
  if negb (pytype_eqb (type config) dict_t) then
    match Json.loads config with
    | Return parsed => Return parsed
    | Raise (JSONDecodeError doc) =>
        if negb (pytype_eqb (type config) str_t)
        then Raise (JSONDecodeError doc)
        else Return config
    | Raise e => Raise e
    | Beyond => Beyond
    end
  else Return config.

(** The values at which normalisation stops: a dictionary, and text that
    the decoder rejects. *)
Definition is_normal_form (v : PyVal) : bool :=
  match v with
  | PDict _ => true
  | PStr s =>
      match Json.loads (PStr s) with
      | Raise (JSONDecodeError _) => true
      | _ => false
      end
  | _ => false
  end.

(** ** The transport *)

Record Request := mkRequest {
  method : string;
  url : string;
  headers : list (string * string);
  data : PyVal
}.

(** What a call does to the outside: a line on the standard output
    ([Printed v] for [print('data: {}'.format(v))]) or a request handed to
    [requests.request]. *)
Inductive Event : Type :=
| Printed (v : PyVal)
| Sent (req : Request).

Definition Trace := list Event.

(** A call that acts on the outside: from the events so far to an outcome
    and the events after it. *)
Definition IO (A : Type) : Type := Trace -> result A * Trace.

Definition ret {A} (a : A) : IO A := fun t => (Return a, t).

Definition lift {A} (r : result A) : IO A := fun t => (r, t).

Definition bindIO {A B} (c : IO A) (k : A -> IO B) : IO B :=
  fun t =>
    match c t with
    | (Return a, t') => k a t'
    | (Raise e, t') => (Raise e, t')
    | (Beyond, t') => (Beyond, t')
    end.

Notation "x <~ c ;; k" := (bindIO c (fun x => k))
  (at level 61, c at next level, right associativity).

Definition emit (e : Event) : IO unit := fun t => (Return tt, (t ++ [e])%list).

(** [Response.raise_for_status] of requests: [HTTPError], holding the
    response, for a status from 400 to 599. *)
Definition raise_for_status (res : Response) : result unit :=
  if (400 <=? status_code res)%Z && (status_code res <? 600)%Z
  then Raise (HTTPError res) else Return tt.

(** The statuses that [raise_for_status] lets through: all but 400 to
    599.  This is the test of the library, not HTTP's class of successful
    statuses, 200 to 299. *)
Definition status_passes (status : Z) : bool :=
  negb ((400 <=? status)%Z && (status <? 600)%Z).

(** The body handed to the transport,
    [json.dumps(data) if type(data) in [dict, str] else data]. *)
Definition body_of (data : PyVal) : result PyVal :=
  if existsb (pytype_eqb (type data)) [dict_t; str_t]
  then text <- Json.dumps data ;; Return (PStr text)
  else Return data.

(** The headers of every request: the content type, and the origin when
    the client has one. *)
Definition headers_of (self : Caddy) : list (string * string) :=
  let headers := [("Content-Type", "application/json")] in
  let headers :=
    if truthy (headers_origin self)
    then (headers ++ [("Origin", the_str (headers_origin self))])%list
    else headers in
  headers.

Section Client.

(** The remote service behind [requests.request]: its answer to a request,
    given what happened before, or the failure of the connection. *)
Variable remote : Trace -> Request -> result Response.

Definition requests_request (method url : string)
    (headers : list (string * string)) (data : PyVal) : IO Response :=
  fun t =>
    let req := mkRequest method url headers data in
    (remote t req, (t ++ [Sent req])%list).

Definition _execute (self : Caddy) (url method : string) (data : PyVal)
  : IO string :=
  let headers := headers_of self in
  data <~ lift (body_of data) ;;
  _ <~ emit (Printed data) ;;
  res <~ requests_request method url headers data ;;
  _ <~ lift (raise_for_status res) ;;
  ret (content res).

Definition config (self : Caddy) (path config_id : option string)
    (raw : bool) : IO PyVal :=
  let _url := _generate_url_by_path self path config_id in
  res <~ _execute self _url "GET" PNone ;;
  if negb raw then lift (Json.loads (PBytes res)) else ret (PBytes res).

Definition load (self : Caddy) (config : PyVal) : IO string :=
  config <~ lift (_prepare_config_data self config) ;;
  let _url := _generate_url_by_path self (Some "config/") None in
  _execute self _url "POST" config.

Definition add (self : Caddy) (config : PyVal) (path : option string)
    (config_id : option string) : IO string :=
  config <~ lift (_prepare_config_data self config) ;;
  let _url := _generate_url_by_path self path config_id in
  _execute self _url "PUT" config.

Definition update (self : Caddy) (config : PyVal) (path : option string)
    (config_id : option string) : IO string :=
  config <~ lift (_prepare_config_data self config) ;;
  let _url := _generate_url_by_path self path config_id in
  _execute self _url "PATCH" config.

Definition stop (self : Caddy) : IO string :=
  let _url := _generate_url_by_path self (Some "stop") None in
  _execute self _url "POST" PNone.

Definition delete (self : Caddy) (path : option string) : IO string :=
  let _url := _generate_url_by_path self path None in
  _execute self _url "DELETE" PNone.

End Client.

(** The requests of a trace, in the order they were sent. *)
Fixpoint sent_requests (t : Trace) : list Request :=
  match t with
  | [] => []
  | Sent req :: t' => req :: sent_requests t'
  | Printed _ :: t' => sent_requests t'
  end.

(** A double quote, for writing JSON text. *)
Definition dq : string := String "034" EmptyString.

(** [req] sent with another verb. *)
Definition with_method (m : string) (req : Request) : Request :=
  mkRequest m (url req) (headers req) (data req).

(** Octets somewhere inside a value, at any depth of its lists and
    dictionaries. *)
Fixpoint holds_octets (v : PyVal) : bool :=
  match v with
  | PBytes _ => true
  | PList items => existsb holds_octets items
  | PDict entries => existsb (fun kv => holds_octets (snd kv)) entries
  | _ => false
  end.

(** * Properties *)

(** ** Text *)

Lemma append_nil_r (s : string) : s ++ "" = s.
Proof. induction s as [| c s IH]; simpl; [reflexivity | now rewrite IH]. Qed.

Lemma append_assoc (a b c : string) : (a ++ b) ++ c = a ++ b ++ c.
Proof. induction a as [| x a IH]; simpl; [reflexivity | now rewrite IH]. Qed.

Lemma truthy_some (s : string) : s <> "" -> truthy (Some s) = true.
Proof. destruct s; [congruence | reflexivity]. Qed.

(** ** Location resolution, branch by branch *)

Section Resolver.

Variable self : Caddy.

Lemma url_neither (path config_id : option string) :
  truthy path = false -> truthy config_id = false ->
  _generate_url_by_path self path config_id = _generate_url self ++ "config/".
Proof.
  intros Hp Hc. unfold _generate_url_by_path. rewrite Hp, Hc. reflexivity.
Qed.

Lemma url_id_only (path : option string) (config_id : string) :
  truthy path = false -> config_id <> "" ->
  _generate_url_by_path self path (Some config_id)
  = _generate_url self ++ "id/" ++ config_id.
Proof.
  intros Hp Hc. unfold _generate_url_by_path.
  rewrite Hp, (truthy_some _ Hc), andb_false_r. simpl.
  now rewrite append_nil_r.
Qed.

Lemma url_id_path (path config_id : string) :
  path <> "" -> config_id <> "" ->
  _generate_url_by_path self (Some path) (Some config_id)
  = _generate_url self ++ "id/" ++ config_id ++ "/" ++ lstrip "/" path.
Proof.
  intros Hp Hc. unfold _generate_url_by_path.
  rewrite (truthy_some _ Hp), (truthy_some _ Hc). simpl.
  now rewrite !append_nil_r, append_assoc.
Qed.

Lemma url_path_only (path : string) (config_id : option string) :
  path <> "" -> truthy config_id = false ->
  _generate_url_by_path self (Some path) config_id
  = _generate_url self ++ "/" ++ lstrip "/" path.
Proof.
  intros Hp Hc. unfold _generate_url_by_path.
  rewrite (truthy_some _ Hp), Hc. simpl.
  now rewrite append_nil_r.
Qed.

End Resolver.

Example example_url_default :
  _generate_url_by_path (Caddy_init "example.com" 2019 "http" None) None None
  = "http://example.com:2019/config/".
Proof. reflexivity. Qed.

Example example_url_id_path :
  _generate_url_by_path (Caddy_default "h") (Some "host/0") (Some "host")
  = "http://h:2019/id/host/host/0".
Proof. reflexivity. Qed.

(** ** The trace of a transport call *)

Lemma sent_requests_app (t u : Trace) :
  sent_requests (t ++ u)%list = (sent_requests t ++ sent_requests u)%list.
Proof.
  induction t as [| [v | req] t IH]; simpl; [reflexivity | exact IH |].
  now rewrite IH.
Qed.

Lemma raise_for_status_success (res : Response) :
  status_passes (status_code res) = true -> raise_for_status res = Return tt.
Proof.
  unfold status_passes, raise_for_status.
  destruct (_ && _); [discriminate | reflexivity].
Qed.

Lemma raise_for_status_failure (res : Response) :
  status_passes (status_code res) = false ->
  raise_for_status res = Raise (HTTPError res).
Proof.
  unfold status_passes, raise_for_status.
  destruct (_ && _); [reflexivity | discriminate].
Qed.

Section Calls.

Variable remote : Trace -> Request -> result Response.
Variable self : Caddy.

(** A body that cannot be encoded stops the call before anything is
    printed or sent. *)
Lemma execute_not_encoded (url method : string) (data : PyVal) (t : Trace)
    (e : exn) :
  body_of data = Raise e ->
  _execute remote self url method data t = (Raise e, t).
Proof. intros H. unfold _execute, bindIO, lift. now rewrite H. Qed.

(** Otherwise the call prints the body, sends one request and ends as the
    answer decides. *)
Lemma execute_encoded (url method : string) (data wire : PyVal) (t : Trace) :
  body_of data = Return wire ->
  let req := mkRequest method url (headers_of self) wire in
  let t1 := (t ++ [Printed wire])%list in
  _execute remote self url method data t =
  (match remote t1 req with
   | Return res =>
       if status_passes (status_code res) then Return (content res)
       else Raise (HTTPError res)
   | Raise e => Raise e
   | Beyond => Beyond
   end, (t1 ++ [Sent req])%list).
Proof.
  intros H req t1. unfold _execute, bindIO, lift, emit, requests_request.
  rewrite H. fold req. fold t1.
  destruct (remote t1 req) as [res | e |]; try reflexivity.
  destruct (status_passes (status_code res)) eqn:Hs.
  - now rewrite (raise_for_status_success _ Hs).
  - now rewrite (raise_for_status_failure _ Hs).
Qed.

Lemma execute_sent (url method : string) (data wire : PyVal) (t : Trace) :
  body_of data = Return wire ->
  sent_requests (snd (_execute remote self url method data t))
  = (sent_requests t ++ [mkRequest method url (headers_of self) wire])%list.
Proof.
  intros H. rewrite (execute_encoded _ _ _ _ _ H). simpl.
  rewrite !sent_requests_app. simpl. now rewrite app_nil_r.
Qed.

(** A call without a body always reaches the transport. *)
Lemma body_of_none : body_of PNone = Return PNone.
Proof. reflexivity. Qed.

End Calls.

(** ** Targets *)

Lemma config_trace (remote : Trace -> Request -> result Response)
    (self : Caddy) (path config_id : option string) (raw : bool) (t : Trace) :
  snd (config remote self path config_id raw t)
  = snd (_execute remote self (_generate_url_by_path self path config_id)
           "GET" PNone t).
Proof.
  unfold config, bindIO.
  destruct (_execute _ _ _ _ _ _) as [[res | e |] t']; try reflexivity.
  destruct raw; reflexivity.
Qed.

Lemma add_trace (remote : Trace -> Request -> result Response)
    (self : Caddy) (cfg body : PyVal) (path config_id : option string)
    (t : Trace) :
  _prepare_config_data self cfg = Return body ->
  add remote self cfg path config_id t
  = _execute remote self (_generate_url_by_path self path config_id)
      "PUT" body t.
Proof. intros H. unfold add, bindIO, lift. now rewrite H. Qed.

(** C8: with neither a path nor an identifier the target is the base
    address followed by [config/]; the client for host [example.com], port
    2019 and protocol [http] reads [http://example.com:2019/config/], and
    that is the address of the one GET request the read sends. *)
Theorem resolve_root_collection :
  (forall self : Caddy,
     _generate_url_by_path self None None = _generate_url self ++ "config/")
  /\ _generate_url (Caddy_init "example.com" 2019 "http" None)
     = "http://example.com:2019/"
  /\ (forall (remote : Trace -> Request -> result Response) (raw : bool)
        (t : Trace),
        sent_requests
          (snd (config remote (Caddy_init "example.com" 2019 "http" None)
                  None None raw t))
        = (sent_requests t
           ++ [mkRequest "GET" "http://example.com:2019/config/"
                 [("Content-Type", "application/json")] PNone])%list).
Proof.
  split; [| split].
  - intros self. now apply url_neither.
  - reflexivity.
  - intros remote raw t. rewrite config_trace.
    now rewrite (execute_sent _ _ _ _ _ _ _ body_of_none).
Qed.

(** C10: an empty path and an empty identifier take the branches of absent
    ones: replacing either by [None] does not change the target, and with
    both empty the target is the base address followed by [config/]. *)
Theorem resolve_empty_as_absent :
  forall (self : Caddy) (path config_id : option string),
    _generate_url_by_path self (Some "") config_id
    = _generate_url_by_path self None config_id
    /\ _generate_url_by_path self path (Some "")
       = _generate_url_by_path self path None
    /\ _generate_url_by_path self (Some "") (Some "")
       = _generate_url self ++ "config/".
Proof.
  intros self path config_id. split; [| split].
  - reflexivity.
  - reflexivity.
  - now apply url_neither.
Qed.

(** C2: with a path and no identifier the code joins the base address,
    which already ends in a separator, and the stripped path with one more
    separator: path [foo/bar] on base [http://h:2019/] gives
    [http://h:2019//foo/bar], and the path [config/] that [load] passes
    gives [http://h:2019//config/], not the address of the default
    branch. *)
Theorem resolve_path_only_doubles_separator :
  _generate_url (Caddy_init "h" 2019 "http" None) = "http://h:2019/"
  /\ _generate_url_by_path (Caddy_init "h" 2019 "http" None)
       (Some "foo/bar") None = "http://h:2019//foo/bar"
  /\ _generate_url_by_path (Caddy_init "h" 2019 "http" None)
       (Some "foo/bar") None <> "http://h:2019/foo/bar"
  /\ _generate_url_by_path (Caddy_init "h" 2019 "http" None)
       (Some "config/") None = "http://h:2019//config/"
  /\ _generate_url_by_path (Caddy_init "h" 2019 "http" None) None None
     = "http://h:2019/config/".
Proof. repeat split; try reflexivity. discriminate. Qed.

(** C5, as the claim has it, fails on a path with two leading separators:
    both are removed, where stripping a single one would leave
    [http://h:2019/id/host//a]. *)
Lemma resolve_id_path_strips_all :
  _generate_url_by_path (Caddy_default "h") (Some "//a") (Some "host")
  = "http://h:2019/id/host/a"
  /\ _generate_url_by_path (Caddy_default "h") (Some "//a") (Some "host")
     <> "http://h:2019/id/host//a".
Proof. split; [reflexivity | discriminate]. Qed.

(** C5, amended: for a non-empty identifier the target is the base address
    followed by [id/<identifier>]; with a non-empty path it goes on with a
    separator and the path without ALL its leading separators; and [add]
    sends its request with the verb PUT to that target. *)
Theorem resolve_identifier (self : Caddy) (config_id path : string)
    (Hid : config_id <> "") (Hpath : path <> "") :
  _generate_url_by_path self None (Some config_id)
  = _generate_url self ++ "id/" ++ config_id
  /\ _generate_url_by_path self (Some path) (Some config_id)
     = _generate_url self ++ "id/" ++ config_id ++ "/" ++ lstrip "/" path
  /\ (forall (remote : Trace -> Request -> result Response)
        (cfg body wire : PyVal) (t : Trace),
        _prepare_config_data self cfg = Return body ->
        body_of body = Return wire ->
        sent_requests
          (snd (add remote self cfg (Some path) (Some config_id) t))
        = (sent_requests t
           ++ [mkRequest "PUT"
                 (_generate_url self ++ "id/" ++ config_id ++ "/"
                  ++ lstrip "/" path)
                 (headers_of self) wire])%list).
Proof.
  split; [| split].
  - now apply url_id_only.
  - now apply url_id_path.
  - intros remote cfg body wire t Hprep Hbody.
    rewrite (add_trace _ _ _ _ _ _ _ Hprep).
    rewrite (execute_sent _ _ _ _ _ _ _ Hbody).
    now rewrite (url_id_path self path config_id Hpath Hid).
Qed.

(** The scenario of C5: identifier [host] with path [host/0]; inserting
    the text [test.example.com] sends one PUT request to
    [http://h:2019/id/host/host/0]. *)
Lemma resolve_identifier_witness :
  "host" <> "" /\ "host/0" <> ""
  /\ _generate_url_by_path (Caddy_default "h") (Some "host/0") (Some "host")
     = "http://h:2019/id/host/host/0"
  /\ sent_requests
       (snd (add (fun _ _ => Return (mkResponse 200 ""))
               (Caddy_default "h") (PStr "test.example.com")
               (Some "host/0") (Some "host") []))
     = [mkRequest "PUT" "http://h:2019/id/host/host/0"
          [("Content-Type", "application/json")]
          (PStr (dq ++ "test.example.com" ++ dq))].
Proof.
  assert (Hid : "host" <> "") by discriminate.
  assert (Hpath : "host/0" <> "") by discriminate.
  destruct (resolve_identifier (Caddy_default "h") "host" "host/0" Hid Hpath)
    as [_ [Hurl Hadd]].
  refine (conj Hid (conj Hpath (conj Hurl _))).
  exact (Hadd (fun _ _ => Return (mkResponse 200 ""))
           (PStr "test.example.com") (PStr "test.example.com")
           (PStr (dq ++ "test.example.com" ++ dq)) [] eq_refl eq_refl).
Defined.

(** ** What the decoder returns *)

(** Splits on the scrutinee of a [match] in hypothesis [H], dropping the
    branches where [H] equates different constructors. *)
Ltac split_match H :=
  match type of H with
  | context [match ?x with _ => _ end] =>
      destruct x eqn:?; try discriminate H
  end.

Ltac returned H :=
  injection H as <- _; discriminate.

(** The scanner builds text, numbers, constants, lists and dictionaries,
    never octets. *)
Lemma scanner_not_bytes (fuel : nat) (doc : string) :
  (forall s v r, Json.scan_once fuel doc s = Return (v, r) ->
                 type v <> bytes_t)
  /\ (forall s acc v r, Json.array_items fuel doc s acc = Return (v, r) ->
                        type v <> bytes_t)
  /\ (forall s pairs v r, Json.object_items fuel doc s pairs = Return (v, r) ->
                          type v <> bytes_t).
Proof.
  induction fuel as [| fuel [IHs [IHa IHo]]].
  - repeat split; intros; discriminate.
  - split; [| split].
    + intros s v r H. simpl in H. unfold bind in H.
      repeat split_match H;
        first [ returned H | eapply IHa; eassumption
              | eapply IHo; eassumption ].
    + intros s acc v r H. simpl in H. unfold bind in H.
      repeat split_match H;
        first [ returned H | eapply IHa; eassumption ].
    + intros s pairs v r H. simpl in H. unfold bind in H.
      repeat split_match H;
        first [ returned H | eapply IHo; eassumption ].
Qed.

Lemma decode_not_bytes (doc : string) (v : PyVal) :
  Json.decode doc = Return v -> type v <> bytes_t.
Proof.
  unfold Json.decode, bind. intros H.
  destruct (Json.scan_once _ _ _) as [[obj rest] | e |] eqn:Hs;
    try discriminate.
  destruct (Json.is_empty _); try discriminate.
  injection H as <-.
  exact (proj1 (scanner_not_bytes _ _) _ _ _ Hs).
Qed.

Lemma loads_not_bytes (s v : PyVal) :
  Json.loads s = Return v -> type v <> bytes_t.
Proof.
  destruct s; simpl; try discriminate.
  - apply decode_not_bytes.
  - unfold bind. destruct (Json.decode_octets b); try discriminate.
    apply decode_not_bytes.
Qed.

(** [json.loads] accepts text and octets only. *)
Lemma loads_type_error (v : PyVal) :
  type v <> str_t -> type v <> bytes_t -> Json.loads v = Raise TypeError.
Proof. destruct v; simpl; intros Hs Hb; congruence. Qed.

(** ** The decoder's fuel *)

Lemma lstrip_length (chars s : string) :
  String.length (lstrip chars s) <= String.length s.
Proof.
  induction s as [| c s IH]; simpl; [lia |].
  destruct (char_in c chars); simpl; lia.
Qed.

Lemma skip_ws_length (s : string) :
  String.length (Json.skip_ws s) <= String.length s.
Proof. apply lstrip_length. Qed.

Lemma span_length (p : ascii -> bool) (s : string) :
  String.length (snd (Json.span p s)) <= String.length s.
Proof.
  induction s as [| c s IH]; simpl; [lia |].
  destruct (p c); [| simpl; lia].
  destruct (Json.span p s) as [a b]. simpl in *. lia.
Qed.

Lemma strip_prefix_length (p s r : string) :
  Json.strip_prefix p s = Some r ->
  String.length s = String.length p + String.length r.
Proof.
  revert s. induction p as [| a p IH]; intros s H; simpl in *.
  - now injection H as ->.
  - destruct s as [| b s]; [discriminate |].
    destruct (Ascii.eqb a b); [| discriminate].
    simpl. now rewrite (IH _ H).
Qed.

Lemma cons_chunk_inv c x t r :
  Json.cons_chunk c x = Return (t, r) ->
  exists t', x = Return (t', r).
Proof.
  unfold Json.cons_chunk, bind. destruct x as [[t' r'] | |]; try discriminate.
  intros H. injection H as _ <-. now exists t'.
Qed.

Lemma scanstring_length (doc s t r : string) :
  Json.scanstring doc s = Return (t, r) -> String.length r < String.length s.
Proof.
  assert (Hle : String.length s <= String.length s) by lia.
  revert Hle. generalize (String.length s) at 2 as n. intros n.
  revert s t r.
  induction n as [| n IH]; intros s t r Hle H.
  - destruct s; simpl in *; [discriminate | lia].
  - destruct s as [| c s]; [discriminate |].
    simpl in H, Hle.
    destruct (Ascii.eqb c "034").
    { injection H as _ <-. simpl. lia. }
    destruct (Ascii.eqb c "\").
    2: { destruct (Ascii.ltb c " "); [discriminate |].
         apply cons_chunk_inv in H as [t' H].
         apply IH in H; simpl; lia. }
    destruct s as [| e s]; [discriminate |].
    simpl in Hle.
    destruct (Ascii.eqb e "u").
    2: { destruct (Json.backslash e); [| discriminate].
         apply cons_chunk_inv in H as [t' H].
         apply IH in H; simpl; lia. }
    destruct s as [| h1 [| h2 [| h3 [| h4 s]]]]; try discriminate.
    destruct (Json.decode_uXXXX h1 h2 h3 h4); [| discriminate].
    destruct (N.ltb n0 256); [| discriminate].
    apply cons_chunk_inv in H as [t' H].
    apply IH in H; simpl in *; lia.
Qed.

(** Opens the scrutinees of the [match]es in the hypotheses, a call of
    [span] with the bound on what it leaves, and closes the goal by
    arithmetic on lengths. *)
Ltac open_match :=
  match goal with
  | H : context [Json.span ?p ?x] |- _ =>
      let E := fresh "Espan" in
      pose proof (span_length p x) as E;
      destruct (Json.span p x); simpl in E
  | H : context [match ?x with _ => _ end] |- _ =>
      destruct x eqn:?; try discriminate H
  end.

Ltac measure :=
  repeat open_match; simpl in *;
  repeat match goal with
         | E : (_, _) = (_, _) |- _ => inversion E; clear E
         | E : Some _ = Some _ |- _ => inversion E; clear E
         end;
  subst; simpl in *; try lia.

Lemma match_number_length (s i f e r : string) :
  Json.match_number s = Some (i, f, e, r) ->
  String.length r < String.length s.
Proof.
  unfold Json.match_number. intros H.
  destruct (match s with EmptyString => _ | String _ _ => _ end)
    as [sign s1] eqn:Hsign.
  destruct (match s1 with EmptyString => _ | String _ _ => _ end)
    as [[digits s2] |] eqn:Hint; [| discriminate].
  destruct (match s2 with EmptyString => _ | String _ _ => _ end)
    as [frac s3] eqn:Hfrac.
  destruct (match s3 with EmptyString => _ | String _ _ => _ end)
    as [exp s4] eqn:Hexp.
  injection H as _ _ _ <-.
  assert (String.length s1 <= String.length s) by (clear - Hsign; measure).
  assert (String.length s2 < String.length s1) by (clear - Hint; measure).
  assert (String.length s3 <= String.length s2) by (clear - Hfrac; measure).
  assert (String.length s4 <= String.length s3) by (clear - Hexp; measure).
  lia.
Qed.

Section Fuel.

#[local] Arguments Json.match_number : simpl never.
#[local] Arguments Json.strip_prefix : simpl never.
#[local] Arguments Json.skip_ws : simpl never.
#[local] Arguments Json.scanstring : simpl never.

(** Turns what the hypotheses say about the pieces of the decoder into
    bounds on lengths. *)
Ltac lengths :=
  repeat match goal with
         | E : Json.scanstring _ _ = Return (_, _) |- _ =>
             apply scanstring_length in E
         | E : Json.strip_prefix _ _ = Some _ |- _ =>
             apply strip_prefix_length in E
         | E : Json.match_number _ = Some _ |- _ =>
             apply match_number_length in E
         | E : Json.skip_ws ?x = _ |- _ =>
             let L := fresh "Hws" in
             pose proof (skip_ws_length x) as L; rewrite E in L; clear E
         | H : context [String.length (Json.skip_ws ?x)] |- _ =>
             let L := fresh "Hws" in
             pose proof (skip_ws_length x) as L;
             generalize dependent (Json.skip_ws x); intros
         | |- context [String.length (Json.skip_ws ?x)] =>
             let L := fresh "Hws" in
             pose proof (skip_ws_length x) as L;
             generalize dependent (Json.skip_ws x); intros
         end;
  simpl in *.

Lemma scanner_length (fuel : nat) (doc : string) :
  (forall s v r, Json.scan_once fuel doc s = Return (v, r) ->
                 String.length r < String.length s)
  /\ (forall s acc v r, Json.array_items fuel doc s acc = Return (v, r) ->
                        String.length r < String.length s)
  /\ (forall s pairs v r, Json.object_items fuel doc s pairs = Return (v, r) ->
                          String.length r < String.length s).
Proof.
  induction fuel as [| fuel [IHs [IHa IHo]]].
  - repeat split; intros; discriminate.
  - split; [| split].
    + intros s v r H. simpl in H. unfold bind in H.
      repeat split_match H;
        try (injection H as _ <-);
        try apply IHa in H; try apply IHo in H;
        lengths; lia.
    + intros s acc v r H. simpl in H. unfold bind in H.
      repeat split_match H;
        try (injection H as _ <-);
        try apply IHa in H;
        repeat match goal with
               | E : Json.scan_once _ _ _ = Return _ |- _ => apply IHs in E
               end;
        lengths; lia.
    + intros s pairs v r H. simpl in H. unfold bind in H.
      repeat split_match H;
        try (injection H as _ <-);
        try apply IHo in H;
        repeat match goal with
               | E : Json.scan_once _ _ _ = Return _ |- _ => apply IHs in E
               end;
        lengths; lia.
Qed.

(** Opens the scrutinee of a [match] of the goal. *)
Ltac split_goal :=
  match goal with
  | |- context [match ?x with _ => _ end] => destruct x eqn:?
  end.

(** With fuel above twice the length of the text (and one or two more)
    the scanner and its loops no longer depend on the fuel. *)
Lemma scanner_fuel (doc : string) (f1 : nat) :
  forall f2 : nat,
    (forall s, 2 * String.length s + 1 <= f1 ->
               2 * String.length s + 1 <= f2 ->
               Json.scan_once f1 doc s = Json.scan_once f2 doc s)
    /\ (forall s acc, 2 * String.length s + 2 <= f1 ->
                      2 * String.length s + 2 <= f2 ->
                      Json.array_items f1 doc s acc
                      = Json.array_items f2 doc s acc)
    /\ (forall s pairs, 2 * String.length s + 2 <= f1 ->
                        2 * String.length s + 2 <= f2 ->
                        Json.object_items f1 doc s pairs
                        = Json.object_items f2 doc s pairs).
Proof.
  induction f1 as [| f1 IH]; intros f2.
  - repeat split; intros; lia.
  - destruct f2 as [| f2]; [repeat split; intros; lia |].
    destruct (IH f2) as [IHs [IHa IHo]].
    split; [| split].
    + intros s H1 H2. simpl.
      repeat first
        [ reflexivity
        | apply IHa; lengths; lia
        | apply IHo; lengths; lia
        | split_goal ].
    + intros s acc H1 H2. simpl. unfold bind.
      rewrite (IHs s) by lia.
      destruct (Json.scan_once f2 doc s) as [[v r] | e |] eqn:Hs;
        try reflexivity.
      apply (proj1 (scanner_length _ _)) in Hs.
      repeat first
        [ reflexivity
        | apply IHa; lengths; lia
        | split_goal ].
    + intros s pairs H1 H2. simpl. unfold bind.
      destruct (Json.scanstring doc s) as [[key r] | e |] eqn:Hk;
        try reflexivity.
      destruct (Json.skip_ws r) as [| n r1] eqn:Hr; try reflexivity.
      destruct (Ascii.eqb n ":"); try reflexivity.
      rewrite (IHs (Json.skip_ws r1)) by (lengths; lia).
      destruct (Json.scan_once f2 doc (Json.skip_ws r1)) as [[v r2] | e |]
        eqn:Hs; try reflexivity.
      apply (proj1 (scanner_length _ _)) in Hs.
      repeat first
        [ reflexivity
        | apply IHo; lengths; lia
        | split_goal ].
Qed.

(** The fuel that [decode] gives the scanner is enough: more of it never
    changes the outcome. *)
Lemma decode_fuel (doc : string) (extra : nat) :
  Json.scan_once (Json.fuel_for doc + extra) doc (Json.skip_ws doc)
  = Json.scan_once (Json.fuel_for doc) doc (Json.skip_ws doc).
Proof.
  pose proof (skip_ws_length doc) as Hws.
  apply (proj1 (scanner_fuel doc _ _)); unfold Json.fuel_for; lia.
Qed.

End Fuel.

(** ** Payload normalisation *)

Lemma prepare_dict (self : Caddy) (d : list (string * PyVal)) :
  _prepare_config_data self (PDict d) = Return (PDict d).
Proof. reflexivity. Qed.

Lemma prepare_opaque_text (self : Caddy) (s doc : string) :
  Json.loads (PStr s) = Raise (JSONDecodeError doc) ->
  _prepare_config_data self (PStr s) = Return (PStr s).
Proof.
  intros H. unfold _prepare_config_data.
  cbn [type pytype_eqb negb]. now rewrite H.
Qed.

Lemma prepare_normal_form (self : Caddy) (v : PyVal) :
  is_normal_form v = true -> _prepare_config_data self v = Return v.
Proof.
  destruct v; cbn [is_normal_form]; try discriminate.
  - destruct (Json.loads (PStr s)) as [p | [doc | | | |] |] eqn:Hl;
      try discriminate.
    intros _. exact (prepare_opaque_text self s doc Hl).
  - intros _. reflexivity.
Qed.

(** C9: text that fails to parse as JSON comes back as it is, and so does
    every dictionary. *)
Theorem normalize_passes_text_and_mapping (self : Caddy) (s doc : string)
    (Hfail : Json.loads (PStr s) = Raise (JSONDecodeError doc)) :
  _prepare_config_data self (PStr s) = Return (PStr s)
  /\ forall d : list (string * PyVal),
       _prepare_config_data self (PDict d) = Return (PDict d).
Proof.
  split.
  - exact (prepare_opaque_text self s doc Hfail).
  - intros d. apply prepare_dict.
Qed.

(** The text [not json] of the specification, and a dictionary. *)
Lemma normalize_passes_text_and_mapping_witness :
  Json.loads (PStr "not json") = Raise (JSONDecodeError "not json")
  /\ _prepare_config_data (Caddy_default "h") (PStr "not json")
     = Return (PStr "not json")
  /\ _prepare_config_data (Caddy_default "h") (PDict [("a", PInt 1)])
     = Return (PDict [("a", PInt 1)]).
Proof.
  assert (Hfail : Json.loads (PStr "not json")
                  = Raise (JSONDecodeError "not json")) by reflexivity.
  destruct (normalize_passes_text_and_mapping (Caddy_default "h")
              "not json" "not json" Hfail) as [Htext Hdict].
  exact (conj Hfail (conj Htext (Hdict [("a", PInt 1)]))).
Defined.

(** C3, as the claim has it, fails on the text [5]: it is accepted and
    normalised to the integer 5, which the normaliser then refuses with a
    [TypeError]. *)
Lemma normalize_not_idempotent :
  _prepare_config_data (Caddy_default "h") (PStr "5") = Return (PInt 5)
  /\ _prepare_config_data (Caddy_default "h") (PInt 5) = Raise TypeError
  /\ (y <- _prepare_config_data (Caddy_default "h") (PStr "5") ;;
      _prepare_config_data (Caddy_default "h") y)
     <> _prepare_config_data (Caddy_default "h") (PStr "5").
Proof. repeat split. discriminate. Qed.

(** C3, amended: normalisation is idempotent on the inputs it turns into a
    dictionary or into text that is not itself JSON: for such an accepted
    input [x] with result [y], normalising [y] succeeds and returns [y],
    so normalising twice is normalising once. *)
Theorem normalize_idempotent_on_normal_forms (self : Caddy) (x y : PyVal)
    (Hacc : _prepare_config_data self x = Return y)
    (Hnf : is_normal_form y = true) :
  _prepare_config_data self y = Return y
  /\ (y' <- _prepare_config_data self x ;; _prepare_config_data self y')
     = _prepare_config_data self x.
Proof.
  pose proof (prepare_normal_form self y Hnf) as Hy.
  split; [exact Hy |].
  rewrite Hacc. simpl. exact Hy.
Qed.

(** The JSON text of an object: normalised to the dictionary, which is
    then left alone. *)
Lemma normalize_idempotent_on_normal_forms_witness :
  _prepare_config_data (Caddy_default "h")
    (PStr ("{" ++ dq ++ "a" ++ dq ++ ": 1}"))
  = Return (PDict [("a", PInt 1)])
  /\ is_normal_form (PDict [("a", PInt 1)]) = true
  /\ _prepare_config_data (Caddy_default "h") (PDict [("a", PInt 1)])
     = Return (PDict [("a", PInt 1)]).
Proof.
  assert (Hacc : _prepare_config_data (Caddy_default "h")
                   (PStr ("{" ++ dq ++ "a" ++ dq ++ ": 1}"))
                 = Return (PDict [("a", PInt 1)])) by reflexivity.
  assert (Hnf : is_normal_form (PDict [("a", PInt 1)]) = true)
    by reflexivity.
  exact (conj Hacc (conj Hnf
           (proj1 (normalize_idempotent_on_normal_forms (Caddy_default "h")
                     _ _ Hacc Hnf)))).
Defined.

(** An input that is neither a dictionary nor text is never passed
    through: when the decoder fails on it with [JSONDecodeError] that
    error is raised again, and when it is not made of octets the
    decoder's [TypeError] propagates. *)
Lemma prepare_other_types (self : Caddy) (v : PyVal) :
  type v <> dict_t -> type v <> str_t ->
  _prepare_config_data self v <> Return v
  /\ (forall doc : string,
        Json.loads v = Raise (JSONDecodeError doc) ->
        _prepare_config_data self v = Raise (JSONDecodeError doc))
  /\ (type v <> bytes_t -> _prepare_config_data self v = Raise TypeError).
Proof.
  intros Hdict Hstr.
  assert (Hd : pytype_eqb (type v) dict_t = false)
    by (destruct v; simpl in *; congruence).
  assert (Hs : pytype_eqb (type v) str_t = false)
    by (destruct v; simpl in *; congruence).
  unfold _prepare_config_data. rewrite Hd, Hs. simpl.
  split; [| split].
  - destruct (Json.loads v) as [p | [doc | | | |] |] eqn:Hl; try discriminate.
    intros Heq. injection Heq as ->.
    pose proof (loads_not_bytes _ _ Hl) as Hnb.
    destruct v; simpl in *; try discriminate; congruence.
  - intros doc Hl. now rewrite Hl.
  - intros Hb. now rewrite (loads_type_error v Hstr Hb).
Qed.

(** C6: on an input that is neither a dictionary nor text the code does
    not raise the decoding error that its docstring and its handler
    announce: a number, a boolean, [None] or a list ends in the
    [TypeError] of [json.loads], and octets that are not UTF-8 in
    [UnicodeDecodeError], both uncaught by a handler that names
    [JSONDecodeError] only.  The handler raises [JSONDecodeError] again
    for octets that are text without being JSON, the one case that
    reaches it. *)
Theorem normalize_other_type_not_decode_error :
  forall self : Caddy,
    (forall n : Z, _prepare_config_data self (PInt n) = Raise TypeError)
    /\ (forall b : bool,
          _prepare_config_data self (PBool b) = Raise TypeError)
    /\ _prepare_config_data self PNone = Raise TypeError
    /\ (forall items : list PyVal,
          _prepare_config_data self (PList items) = Raise TypeError)
    /\ _prepare_config_data self (PBytes (String "255" EmptyString))
       = Raise UnicodeDecodeError
    /\ _prepare_config_data self (PBytes "not json")
       = Raise (JSONDecodeError "not json").
Proof. intros self. repeat split. Qed.

(** ** The transport call *)

Section Transport.

Variable remote : Trace -> Request -> result Response.
Variable self : Caddy.

Lemma body_of_text (s : string) :
  body_of (PStr s) = Return (PStr (Json.encode_basestring_ascii s)).
Proof. reflexivity. Qed.

Lemma body_of_dict (entries : list (string * PyVal)) (text : string) :
  Json.dumps (PDict entries) = Return text ->
  body_of (PDict entries) = Return (PStr text).
Proof.
  intros H. unfold body_of. cbn [type existsb pytype_eqb orb].
  now rewrite H.
Qed.

Lemma body_of_other (data : PyVal) :
  type data <> dict_t -> type data <> str_t -> body_of data = Return data.
Proof.
  destruct data; simpl; intros Hd Hs; try reflexivity; congruence.
Qed.

(** Under a remote service that answers every request with [res], a
    status that [raise_for_status] refuses ends every call that reaches
    the transport in [HTTPError]. *)
Lemma execute_error_status (url method : string) (data wire : PyVal)
    (t : Trace) (res : Response) :
  (forall t' req, remote t' req = Return res) ->
  status_passes (status_code res) = false ->
  body_of data = Return wire ->
  fst (_execute remote self url method data t) = Raise (HTTPError res).
Proof.
  intros Hremote Hstatus Hbody.
  rewrite (execute_encoded _ _ _ _ _ _ _ Hbody). cbn [fst].
  now rewrite Hremote, Hstatus.
Qed.

Lemma execute_never_returns (url method : string) (data : PyVal) (t : Trace)
    (res : Response) :
  (forall t' req, remote t' req = Return res) ->
  status_passes (status_code res) = false ->
  forall body, fst (_execute remote self url method data t) <> Return body.
Proof.
  intros Hremote Hstatus body.
  destruct (body_of data) as [wire | e |] eqn:Hbody.
  - now rewrite (execute_error_status _ _ _ _ _ _ Hremote Hstatus Hbody).
  - now rewrite (execute_not_encoded _ _ _ _ _ _ _ Hbody).
  - unfold _execute, bindIO, lift. now rewrite Hbody.
Qed.

(** What a read returns under a remote service that answers [res] with a
    status let through: the decoder's outcome on the body, or the body. *)
Lemma config_outcome (path config_id : option string) (raw : bool)
    (t : Trace) (res : Response) :
  (forall t' req, remote t' req = Return res) ->
  status_passes (status_code res) = true ->
  fst (config remote self path config_id raw t)
  = if raw then Return (PBytes (content res))
    else Json.loads (PBytes (content res)).
Proof.
  intros Hremote Hstatus. unfold config, bindIO.
  rewrite (execute_encoded _ _ _ _ _ _ _ body_of_none).
  rewrite Hremote, Hstatus. destruct raw; reflexivity.
Qed.

End Transport.

(** C4, as the claim has it, fails on a text body: the text [not json] is
    sent JSON-encoded, between double quotes, not as it is. *)
Lemma execute_quotes_text_body :
  sent_requests
    (snd (_execute (fun _ _ => Return (mkResponse 200 ""))
            (Caddy_default "h") "http://h:2019/id/x" "PUT"
            (PStr "not json") []))
  = [mkRequest "PUT" "http://h:2019/id/x"
       [("Content-Type", "application/json")]
       (PStr (dq ++ "not json" ++ dq))]
  /\ PStr (dq ++ "not json" ++ dq) <> PStr "not json".
Proof. split; [reflexivity | discriminate]. Qed.

(** C4, amended: a dictionary and a text body are both sent as their JSON
    encoding (text comes out quoted and escaped); a body of octets is sent
    as it is; and without a body the request carries none. *)
Theorem execute_body (remote : Trace -> Request -> result Response)
    (self : Caddy) (url method : string) (t : Trace)
    (entries : list (string * PyVal)) (text : string)
    (Hdumps : Json.dumps (PDict entries) = Return text) :
  sent_requests (snd (_execute remote self url method (PDict entries) t))
  = (sent_requests t
     ++ [mkRequest method url (headers_of self) (PStr text)])%list
  /\ (forall s : string,
        sent_requests (snd (_execute remote self url method (PStr s) t))
        = (sent_requests t
           ++ [mkRequest method url (headers_of self)
                 (PStr (Json.encode_basestring_ascii s))])%list)
  /\ (forall b : string,
        sent_requests (snd (_execute remote self url method (PBytes b) t))
        = (sent_requests t
           ++ [mkRequest method url (headers_of self) (PBytes b)])%list)
  /\ sent_requests (snd (_execute remote self url method PNone t))
     = (sent_requests t
        ++ [mkRequest method url (headers_of self) PNone])%list.
Proof.
  split; [| split; [| split]].
  - apply execute_sent. now apply body_of_dict.
  - intros s. apply execute_sent. apply body_of_text.
  - intros b. now apply execute_sent.
  - now apply execute_sent.
Qed.

(** A dictionary with one entry, sent as the JSON text of the object. *)
Lemma execute_body_witness :
  Json.dumps (PDict [("a", PInt 1)])
  = Return ("{" ++ dq ++ "a" ++ dq ++ ": 1}")
  /\ sent_requests
       (snd (_execute (fun _ _ => Return (mkResponse 200 ""))
               (Caddy_default "h") "http://h:2019/config/" "POST"
               (PDict [("a", PInt 1)]) []))
     = [mkRequest "POST" "http://h:2019/config/"
          [("Content-Type", "application/json")]
          (PStr ("{" ++ dq ++ "a" ++ dq ++ ": 1}"))].
Proof.
  assert (Hdumps : Json.dumps (PDict [("a", PInt 1)])
                   = Return ("{" ++ dq ++ "a" ++ dq ++ ": 1}"))
    by reflexivity.
  exact (conj Hdumps
           (proj1 (execute_body (fun _ _ => Return (mkResponse 200 ""))
                     (Caddy_default "h") "http://h:2019/config/" "POST" []
                     _ _ Hdumps))).
Defined.

(** C7, as the claim has it, fails on the statuses that are neither
    successful (200 to 299) nor errors for [raise_for_status] (400 to
    599): under the answers 304, 199 and 600 the transport call returns
    the body, and a read returns the decoded content. *)
Lemma execute_returns_outside_success_range :
  ~ (200 <= 304 < 300)%Z
  /\ fst (_execute (fun _ _ => Return (mkResponse 304 "body"))
            (Caddy_default "h") "http://h:2019/config/" "GET" PNone [])
     = Return "body"
  /\ fst (config (fun _ _ => Return (mkResponse 304 "[1]"))
            (Caddy_default "h") None None false [])
     = Return (PList [PInt 1])
  /\ fst (_execute (fun _ _ => Return (mkResponse 199 "body"))
            (Caddy_default "h") "http://h:2019/config/" "GET" PNone [])
     = Return "body"
  /\ fst (_execute (fun _ _ => Return (mkResponse 600 "body"))
            (Caddy_default "h") "http://h:2019/config/" "GET" PNone [])
     = Return "body".
Proof. split; [lia | repeat split]. Qed.

(** C7, amended: when the remote service answers with a status from 400
    to 599, a transport call never returns: once the request is sent its
    outcome is the [HTTPError] that holds the response, status code and
    body; a read returns no content, decoded or raw, and neither does any
    other operation. *)
Theorem execute_fails_on_error_status
    (remote : Trace -> Request -> result Response) (self : Caddy)
    (res : Response)
    (Hremote : forall t' req, remote t' req = Return res)
    (Herror : (400 <= status_code res < 600)%Z) :
  (forall url method data t body,
     fst (_execute remote self url method data t) <> Return body)
  /\ (forall url method data wire t,
        body_of data = Return wire ->
        fst (_execute remote self url method data t) = Raise (HTTPError res))
  /\ (forall path config_id raw t,
        fst (config remote self path config_id raw t)
        = Raise (HTTPError res))
  /\ (forall cfg path config_id t body,
        fst (load remote self cfg t) <> Return body
        /\ fst (add remote self cfg path config_id t) <> Return body
        /\ fst (update remote self cfg path config_id t) <> Return body
        /\ fst (delete remote self path t) <> Return body
        /\ fst (stop remote self t) <> Return body).
Proof.
  assert (Hstatus : status_passes (status_code res) = false).
  { unfold status_passes. destruct Herror as [Hlow Hhigh].
    apply Z.leb_le in Hlow. apply Z.ltb_lt in Hhigh.
    now rewrite Hlow, Hhigh. }
  pose proof (fun u m d t =>
                execute_never_returns remote self u m d t res Hremote Hstatus)
    as Hnever.
  split; [| split; [| split]].
  - intros url method data t body. apply Hnever.
  - intros url method data wire t Hbody.
    exact (execute_error_status remote self url method data wire t res
             Hremote Hstatus Hbody).
  - intros path config_id raw t. unfold config, bindIO.
    pose proof (execute_error_status remote self
                  (_generate_url_by_path self path config_id) "GET"
                  PNone PNone t res Hremote Hstatus body_of_none) as He.
    destruct (_execute _ _ _ _ _ _) as [[c | e |] t'];
      simpl in He; try discriminate.
    injection He as ->. reflexivity.
  - intros cfg path config_id t body.
    repeat split; unfold load, add, update, delete, stop, bindIO, lift;
      try apply Hnever;
      destruct (_prepare_config_data self cfg);
      try apply Hnever; discriminate.
Qed.

(** The scenario of C7: every request is answered with status 500. *)
Lemma execute_fails_on_error_status_witness :
  (forall (t' : Trace) (req : Request),
     (fun _ _ => Return (mkResponse 500 "oops")) t' req
     = Return (mkResponse 500 "oops"))
  /\ (400 <= status_code (mkResponse 500 "oops") < 600)%Z
  /\ fst (config (fun _ _ => Return (mkResponse 500 "oops"))
            (Caddy_default "h") None None false [])
     = Raise (HTTPError (mkResponse 500 "oops")).
Proof.
  assert (Hremote : forall (t' : Trace) (req : Request),
             (fun _ _ => Return (mkResponse 500 "oops")) t' req
             = Return (mkResponse 500 "oops")) by reflexivity.
  assert (Herror : (400 <= status_code (mkResponse 500 "oops") < 600)%Z)
    by (simpl; lia).
  destruct (execute_fails_on_error_status _ (Caddy_default "h") _
              Hremote Herror) as [_ [_ [Hread _]]].
  exact (conj Hremote (conj Herror (Hread None None false []))).
Defined.

(** C1: the read decodes the body with no handler around the decoder, so
    a body that is not JSON ends the call in [JSONDecodeError]: with the
    body [plain text] and decoding requested, whatever the location, the
    read raises and returns nothing, while in raw mode it returns the
    octets. *)
Theorem config_decode_failure_raises :
  forall (self : Caddy) (path config_id : option string) (t : Trace),
    fst (config (fun _ _ => Return (mkResponse 200 "plain text"))
           self path config_id false t)
    = Raise (JSONDecodeError "plain text")
    /\ fst (config (fun _ _ => Return (mkResponse 200 "plain text"))
              self path config_id true t)
       = Return (PBytes "plain text").
Proof.
  intros self path config_id t.
  split; now rewrite (config_outcome _ self path config_id _ t
                        (mkResponse 200 "plain text")).
Qed.

(** * Further properties of the client *)

(** ** Text through the encoder and the decoder *)

Lemma escape_char_scanned (doc : string) (c : ascii) (rest : string) :
  Json.scanstring doc (Json.escape_char c ++ rest)
  = Json.cons_chunk c (Json.scanstring doc rest).
Proof.
  destruct c as [b0 b1 b2 b3 b4 b5 b6 b7].
  destruct b0, b1, b2, b3, b4, b5, b6, b7; reflexivity.
Qed.

Lemma escape_scanned (doc s rest : string) :
  Json.scanstring doc (Json.escape s ++ dq ++ rest) = Return (s, rest).
Proof.
  induction s as [| c s IH]; [reflexivity |].
  cbn [Json.escape]. rewrite append_assoc, escape_char_scanned, IH.
  reflexivity.
Qed.

Lemma loads_encoded_text (s : string) :
  Json.loads (PStr (Json.encode_basestring_ascii s)) = Return (PStr s).
Proof.
  unfold Json.loads, Json.decode, Json.fuel_for.
  rewrite Nat.add_comm. cbn [Nat.add].
  unfold Json.encode_basestring_ascii.
  change (Json.skip_ws (String "034" (Json.escape s ++ String "034" "")))
    with (String "034" (Json.escape s ++ dq ++ "")).
  cbn [Json.scan_once]. cbn [Ascii.eqb Bool.eqb].
  rewrite escape_scanned. reflexivity.
Qed.

(** What [both] gives from what its two steps give, for steps that raise
    nothing but [TypeError]. *)
Lemma both_outcome {A B C} (first : result A) (second : result B)
    (f : A -> B -> C) (p q : bool) :
  (if p then first = Raise TypeError
   else first = Beyond \/ exists a, first = Return a) ->
  (if q then second = Raise TypeError
   else second = Beyond \/ exists b, second = Return b) ->
  if p || q then Json.both first second f = Raise TypeError
  else Json.both first second f = Beyond
       \/ exists c, Json.both first second f = Return c.
Proof.
  destruct p; cbn [orb]; [now intros -> |].
  intros [-> | [a ->]]; destruct q.
  - now intros ->.
  - intros [-> | [b ->]]; now left.
  - now intros ->.
  - intros [-> | [b ->]]; [now left | right; eexists; reflexivity].
Qed.

(** [json.dumps] raises, and then [TypeError], exactly on the values that
    hold octets; on the others it returns text, unless a float leaves the
    model. *)
Lemma dumps_outcome (v : PyVal) :
  if holds_octets v then Json.dumps v = Raise TypeError
  else Json.dumps v = Beyond \/ exists text, Json.dumps v = Return text.
Proof.
  revert v. fix dumps_outcome 1. intros v.
  destruct v as [| [|] | n | lit | s | b | items | entries];
    cbn [holds_octets Json.dumps];
    try (right; eexists; reflexivity); try reflexivity.
  - unfold Json.float_repr. destruct (_ || _); [right | left];
      [eexists |]; reflexivity.
  - assert (H : if existsb holds_octets items
                then (fix each (l : list PyVal) : result (list string) :=
                        match l with
                        | [] => Return []
                        | x :: l' => Json.both (Json.dumps x) (each l') cons
                        end) items = Raise TypeError
                else (fix each (l : list PyVal) : result (list string) :=
                        match l with
                        | [] => Return []
                        | x :: l' => Json.both (Json.dumps x) (each l') cons
                        end) items = Beyond
                     \/ exists parts,
                         (fix each (l : list PyVal) : result (list string) :=
                            match l with
                            | [] => Return []
                            | x :: l' =>
                                Json.both (Json.dumps x) (each l') cons
                            end) items = Return parts).
    { induction items as [| x items IH]; [right; eexists; reflexivity |].
      cbn [existsb].
      exact (both_outcome _ _ _ _ _ (dumps_outcome x) IH). }
    destruct (existsb holds_octets items).
    + now rewrite H.
    + destruct H as [-> | [parts ->]]; [now left |].
      right. eexists; reflexivity.
  - assert (H : if existsb (fun kv => holds_octets (snd kv)) entries
                then (fix each (l : list (string * PyVal))
                        : result (list string) :=
                        match l with
                        | [] => Return []
                        | (k, x) :: l' =>
                            Json.both (Json.dumps x) (each l')
                              (fun sx sl =>
                                 (Json.encode_basestring_ascii k ++ ": "
                                  ++ sx)%string :: sl)
                        end) entries = Raise TypeError
                else (fix each (l : list (string * PyVal))
                        : result (list string) :=
                        match l with
                        | [] => Return []
                        | (k, x) :: l' =>
                            Json.both (Json.dumps x) (each l')
                              (fun sx sl =>
                                 (Json.encode_basestring_ascii k ++ ": "
                                  ++ sx)%string :: sl)
                        end) entries = Beyond
                     \/ exists parts,
                         (fix each (l : list (string * PyVal))
                            : result (list string) :=
                            match l with
                            | [] => Return []
                            | (k, x) :: l' =>
                                Json.both (Json.dumps x) (each l')
                                  (fun sx sl =>
                                     (Json.encode_basestring_ascii k ++ ": "
                                      ++ sx)%string :: sl)
                            end) entries = Return parts).
    { induction entries as [| [k x] entries IH];
        [right; eexists; reflexivity |].
      cbn [existsb snd].
      exact (both_outcome _ _ _ _ _ (dumps_outcome x) IH). }
    destruct (existsb (fun kv => holds_octets (snd kv)) entries).
    + now rewrite H.
    + destruct H as [-> | [parts ->]]; [now left |].
      right. eexists; reflexivity.
Qed.

(** ** Targets *)

(** X11: the target is the base address of the client followed by a
    location that depends on the path and the identifier only: resolution
    never touches the protocol, the host or the port. *)
Theorem target_extends_base :
  forall path config_id : option string,
  exists location : string,
  forall self : Caddy,
    _generate_url_by_path self path config_id
    = _generate_url self ++ location.
Proof.
  intros [[| c p] |] [[| d i] |].
  all: try (exists "config/"; intros self; now apply url_neither).
  all: try (exists ("id/" ++ String d i); intros self;
            now apply url_id_only).
  all: try (exists ("/" ++ lstrip "/" (String c p)); intros self;
            now apply url_path_only).
  all: exists ("id/" ++ String d i ++ "/" ++ lstrip "/" (String c p));
    intros self; now apply url_id_path.
Qed.

(** X12: separators in front of a non-empty path do not count: one more
    of them gives the same target, with or without an identifier. *)
Theorem leading_separators_ignored (self : Caddy) (path : string)
    (config_id : option string) (Hpath : path <> "") :
  _generate_url_by_path self (Some ("/" ++ path)) config_id
  = _generate_url_by_path self (Some path) config_id.
Proof.
  unfold _generate_url_by_path.
  rewrite (truthy_some _ Hpath). reflexivity.
Qed.

Lemma leading_separators_ignored_witness :
  "host/0" <> ""
  /\ _generate_url_by_path (Caddy_default "h") (Some "/host/0") (Some "host")
     = "http://h:2019/id/host/host/0".
Proof.
  assert (Hpath : "host/0" <> "") by discriminate.
  exact (conj Hpath
           (leading_separators_ignored (Caddy_default "h") "host/0"
              (Some "host") Hpath)).
Defined.

(** ** What a call leaves on the trace *)

Section Effects.

Variable remote : Trace -> Request -> result Response.
Variable self : Caddy.

(** A transport call adds nothing to the trace, or the print of the body
    followed by the request. *)
Lemma execute_extends (url method : string) (data : PyVal) (t : Trace) :
  snd (_execute remote self url method data t) = t
  \/ exists wire,
       body_of data = Return wire
       /\ snd (_execute remote self url method data t)
          = (t ++ [Printed wire;
                   Sent (mkRequest method url (headers_of self) wire)])%list.
Proof.
  destruct (body_of data) as [wire | e |] eqn:Hbody.
  - right. exists wire. split; [reflexivity |].
    rewrite (execute_encoded _ _ _ _ _ _ _ Hbody). cbn [snd].
    now rewrite <- app_assoc.
  - left. now rewrite (execute_not_encoded _ _ _ _ _ _ _ Hbody).
  - left. unfold _execute, bindIO, lift. now rewrite Hbody.
Qed.

Lemma execute_bounded (url method : string) (data : PyVal) (t : Trace) :
  exists events,
    snd (_execute remote self url method data t) = (t ++ events)%list
    /\ List.length (sent_requests events) <= 1.
Proof.
  destruct (execute_extends url method data t) as [-> | [wire [_ ->]]].
  - exists []. now rewrite app_nil_r; split; [| simpl; lia].
  - eexists. split; [reflexivity | simpl; lia].
Qed.

(** The same for a call that normalises its payload first. *)
Lemma prepared_bounded (cfg : PyVal) (url method : string) (t : Trace) :
  exists events,
    snd ((body <~ lift (_prepare_config_data self cfg) ;;
          _execute remote self url method body) t) = (t ++ events)%list
    /\ List.length (sent_requests events) <= 1.
Proof.
  unfold bindIO, lift.
  destruct (_prepare_config_data self cfg) as [body | e |].
  - apply execute_bounded.
  - exists []. simpl. now rewrite app_nil_r; split; [| lia].
  - exists []. simpl. now rewrite app_nil_r; split; [| lia].
Qed.

End Effects.

(** X2: every operation keeps the events before it and adds at most one
    request to them, whatever the remote service answers: nothing is sent
    twice, nothing of the past is dropped. *)
Theorem operations_send_at_most_once :
  forall (remote : Trace -> Request -> result Response) (self : Caddy)
         (cfg : PyVal) (path config_id : option string) (raw : bool)
         (t : Trace),
    (exists events,
       snd (config remote self path config_id raw t) = (t ++ events)%list
       /\ List.length (sent_requests events) <= 1)
    /\ (exists events,
          snd (load remote self cfg t) = (t ++ events)%list
          /\ List.length (sent_requests events) <= 1)
    /\ (exists events,
          snd (add remote self cfg path config_id t) = (t ++ events)%list
          /\ List.length (sent_requests events) <= 1)
    /\ (exists events,
          snd (update remote self cfg path config_id t) = (t ++ events)%list
          /\ List.length (sent_requests events) <= 1)
    /\ (exists events,
          snd (delete remote self path t) = (t ++ events)%list
          /\ List.length (sent_requests events) <= 1)
    /\ (exists events,
          snd (stop remote self t) = (t ++ events)%list
          /\ List.length (sent_requests events) <= 1).
Proof.
  intros remote self cfg path config_id raw t.
  repeat split.
  - rewrite config_trace. apply execute_bounded.
  - apply prepared_bounded.
  - apply prepared_bounded.
  - apply prepared_bounded.
  - apply execute_bounded.
  - apply execute_bounded.
Qed.

(** X4: a transport call prints the body it is about to send, then sends
    it: the two events it adds carry the same encoded body. *)
Theorem body_printed_then_sent
    (remote : Trace -> Request -> result Response) (self : Caddy)
    (url method : string) (data wire : PyVal) (t : Trace)
    (Hbody : body_of data = Return wire) :
  snd (_execute remote self url method data t)
  = (t ++ [Printed wire;
           Sent (mkRequest method url (headers_of self) wire)])%list.
Proof.
  rewrite (execute_encoded _ _ _ _ _ _ _ Hbody). cbn [snd].
  now rewrite <- app_assoc.
Qed.

Lemma body_printed_then_sent_witness :
  body_of (PStr "example.com") = Return (PStr (dq ++ "example.com" ++ dq))
  /\ snd (_execute (fun _ _ => Return (mkResponse 200 ""))
            (Caddy_default "h") "http://h:2019/id/host/host/0" "PUT"
            (PStr "example.com") [])
     = [Printed (PStr (dq ++ "example.com" ++ dq));
        Sent (mkRequest "PUT" "http://h:2019/id/host/host/0"
                [("Content-Type", "application/json")]
                (PStr (dq ++ "example.com" ++ dq)))].
Proof.
  assert (Hbody : body_of (PStr "example.com")
                  = Return (PStr (dq ++ "example.com" ++ dq)))
    by reflexivity.
  exact (conj Hbody
           (body_printed_then_sent (fun _ _ => Return (mkResponse 200 ""))
              (Caddy_default "h") "http://h:2019/id/host/host/0" "PUT"
              _ _ [] Hbody)).
Defined.

(** X1: every request carries the JSON content type, and an [Origin]
    header exactly when the client was given a non-empty one, with that
    value; an empty origin is left out like a missing one. *)
Theorem request_headers
    (remote : Trace -> Request -> result Response) (self : Caddy)
    (url method : string) (data wire : PyVal) (t : Trace)
    (Hbody : body_of data = Return wire) :
  exists req,
    sent_requests (snd (_execute remote self url method data t))
    = (sent_requests t ++ [req])%list
    /\ In ("Content-Type", "application/json") (headers req)
    /\ (forall name value,
          In (name, value) (headers req) ->
          name = "Content-Type" \/ name = "Origin")
    /\ (forall origin,
          In ("Origin", origin) (headers req)
          <-> headers_origin self = Some origin /\ origin <> "").
Proof.
  exists (mkRequest method url (headers_of self) wire).
  split; [now apply execute_sent |].
  cbn [headers]. unfold headers_of.
  destruct (headers_origin self) as [[| c o] |]; cbn [truthy the_str app];
    (split; [now left | split; [| intros origin; split]]).
  - intros name value [H | []]. injection H as <- _. now left.
  - intros [H | []]. discriminate.
  - intros [H Hne]. injection H as <-. congruence.
  - intros name value [H | [H | []]]; injection H as <- _; auto.
  - intros [H | [H | []]]; [discriminate | injection H as <-].
    split; [reflexivity | discriminate].
  - intros [H _]. injection H as <-. right. now left.
  - intros name value [H | []]. injection H as <- _. now left.
  - intros [H | []]. discriminate.
  - intros [H _]. discriminate.
Qed.

Lemma request_headers_witness :
  body_of PNone = Return PNone
  /\ sent_requests
       (snd (_execute (fun _ _ => Return (mkResponse 200 ""))
               (Caddy_init "h" 2019 "https" (Some "https://admin.example"))
               "https://h:2019/config/" "GET" PNone []))
     = [mkRequest "GET" "https://h:2019/config/"
          [("Content-Type", "application/json");
           ("Origin", "https://admin.example")] PNone].
Proof.
  assert (Hbody : body_of PNone = Return PNone) by reflexivity.
  destruct (request_headers (fun _ _ => Return (mkResponse 200 ""))
              (Caddy_init "h" 2019 "https" (Some "https://admin.example"))
              "https://h:2019/config/" "GET" PNone PNone [] Hbody)
    as [req [Hsent _]].
  split; [exact Hbody |].
  rewrite Hsent. cbn [sent_requests app]. f_equal.
  cbn in Hsent. now injection Hsent as <-.
Defined.

(** ** The operations that write *)

Section Writes.

Variable remote : Trace -> Request -> result Response.
Variable self : Caddy.

(** A call that normalises its payload, once the payload is accepted. *)
Lemma prepared_accepted (cfg body : PyVal) (url method : string) (t : Trace) :
  _prepare_config_data self cfg = Return body ->
  (b <~ lift (_prepare_config_data self cfg) ;;
   _execute remote self url method b) t
  = _execute remote self url method body t.
Proof. intros H. unfold bindIO, lift. now rewrite H. Qed.

(** When it sends a request, the payload was accepted and encoded. *)
Lemma prepared_sent_inv (cfg : PyVal) (url method : string) (t : Trace)
    (req : Request) :
  sent_requests
    (snd ((b <~ lift (_prepare_config_data self cfg) ;;
           _execute remote self url method b) t))
  = (sent_requests t ++ [req])%list ->
  exists body wire,
    _prepare_config_data self cfg = Return body
    /\ body_of body = Return wire
    /\ req = mkRequest method url (headers_of self) wire.
Proof.
  assert (Hno : sent_requests t <> (sent_requests t ++ [req])%list).
  { intros H. apply (f_equal (@List.length _)) in H.
    rewrite length_app in H. simpl in H. lia. }
  unfold bindIO, lift.
  destruct (_prepare_config_data self cfg) as [body | e |];
    cbn [snd]; try (intros H; now elim Hno).
  destruct (execute_extends remote self url method body t)
    as [-> | [wire [Hbody ->]]]; [intros H; now elim Hno |].
  rewrite sent_requests_app. cbn [sent_requests].
  intros H. apply app_inv_head in H. injection H as <-.
  now exists body, wire.
Qed.

End Writes.

(** X3: a payload that the normaliser refuses stops [load], [add] and
    [update] at once: the error is the normaliser's and the trace is left
    as it was, nothing printed, nothing sent. *)
Theorem rejected_config_sends_nothing
    (remote : Trace -> Request -> result Response) (self : Caddy)
    (cfg : PyVal) (e : exn)
    (Hrefused : _prepare_config_data self cfg = Raise e) :
  forall (path config_id : option string) (t : Trace),
    load remote self cfg t = (Raise e, t)
    /\ add remote self cfg path config_id t = (Raise e, t)
    /\ update remote self cfg path config_id t = (Raise e, t).
Proof.
  intros path config_id t.
  unfold load, add, update, bindIO, lift. rewrite Hrefused. auto.
Qed.

Lemma rejected_config_sends_nothing_witness :
  _prepare_config_data (Caddy_default "h") (PBytes "not json")
  = Raise (JSONDecodeError "not json")
  /\ add (fun _ _ => Return (mkResponse 200 "")) (Caddy_default "h")
       (PBytes "not json") (Some "apps") None []
     = (Raise (JSONDecodeError "not json"), []).
Proof.
  assert (Hrefused : _prepare_config_data (Caddy_default "h")
                       (PBytes "not json")
                     = Raise (JSONDecodeError "not json")) by reflexivity.
  exact (conj Hrefused
           (proj1 (proj2 (rejected_config_sends_nothing
                            (fun _ _ => Return (mkResponse 200 ""))
                            (Caddy_default "h") _ _ Hrefused
                            (Some "apps") None [])))).
Defined.

(** X6: [update] and [load] send what [add] sends, under another verb:
    whenever [add] sends a request, it is a PUT, [update] on the same
    arguments sends the same target, headers and body as a PATCH, and
    [load] sends as a POST what [add] sends for the path [config/]
    without identifier. *)
Theorem update_and_load_follow_add
    (remote : Trace -> Request -> result Response) (self : Caddy)
    (cfg : PyVal) (path config_id : option string) (t : Trace)
    (req : Request)
    (Hadd : sent_requests (snd (add remote self cfg path config_id t))
            = (sent_requests t ++ [req])%list) :
  method req = "PUT"
  /\ sent_requests (snd (update remote self cfg path config_id t))
     = (sent_requests t ++ [with_method "PATCH" req])%list
  /\ (path = Some "config/" -> config_id = None ->
      sent_requests (snd (load remote self cfg t))
      = (sent_requests t ++ [with_method "POST" req])%list).
Proof.
  apply prepared_sent_inv in Hadd as [body [wire [Hprep [Hbody ->]]]].
  split; [reflexivity | split].
  - unfold update. rewrite (prepared_accepted _ _ _ _ _ _ _ Hprep).
    now rewrite (execute_sent _ _ _ _ _ _ _ Hbody).
  - intros -> ->. unfold load.
    rewrite (prepared_accepted _ _ _ _ _ _ _ Hprep).
    now rewrite (execute_sent _ _ _ _ _ _ _ Hbody).
Qed.

Lemma update_and_load_follow_add_witness :
  sent_requests
    (snd (add (fun _ _ => Return (mkResponse 200 "")) (Caddy_default "h")
            (PDict [("a", PInt 1)]) (Some "host/0") (Some "host") []))
  = [mkRequest "PUT" "http://h:2019/id/host/host/0"
       [("Content-Type", "application/json")]
       (PStr ("{" ++ dq ++ "a" ++ dq ++ ": 1}"))]
  /\ sent_requests
       (snd (update (fun _ _ => Return (mkResponse 200 ""))
               (Caddy_default "h") (PDict [("a", PInt 1)])
               (Some "host/0") (Some "host") []))
     = [mkRequest "PATCH" "http://h:2019/id/host/host/0"
          [("Content-Type", "application/json")]
          (PStr ("{" ++ dq ++ "a" ++ dq ++ ": 1}"))].
Proof.
  assert (Hadd : sent_requests
                   (snd (add (fun _ _ => Return (mkResponse 200 ""))
                           (Caddy_default "h") (PDict [("a", PInt 1)])
                           (Some "host/0") (Some "host") []))
                 = (sent_requests []
                    ++ [mkRequest "PUT" "http://h:2019/id/host/host/0"
                          [("Content-Type", "application/json")]
                          (PStr ("{" ++ dq ++ "a" ++ dq ++ ": 1}"))])%list)
    by reflexivity.
  exact (conj Hadd
           (proj1 (proj2 (update_and_load_follow_add _ _ _ _ _ _ _ Hadd)))).
Defined.

(** X7: text that is not JSON survives the wire: [add] sends it as a JSON
    document, and that document decodes to the very text the caller
    gave. *)
Theorem opaque_text_survives_wire
    (remote : Trace -> Request -> result Response) (self : Caddy)
    (s doc : string) (path config_id : option string) (t : Trace)
    (Hfail : Json.loads (PStr s) = Raise (JSONDecodeError doc)) :
  exists wire : string,
    sent_requests (snd (add remote self (PStr s) path config_id t))
    = (sent_requests t
       ++ [mkRequest "PUT" (_generate_url_by_path self path config_id)
             (headers_of self) (PStr wire)])%list
    /\ Json.loads (PStr wire) = Return (PStr s).
Proof.
  exists (Json.encode_basestring_ascii s). split.
  - rewrite (add_trace _ _ _ _ _ _ _ (prepare_opaque_text self s doc Hfail)).
    apply execute_sent. reflexivity.
  - apply loads_encoded_text.
Qed.

Lemma opaque_text_survives_wire_witness :
  Json.loads (PStr "test.example.com")
  = Raise (JSONDecodeError "test.example.com")
  /\ exists wire : string,
       sent_requests
         (snd (add (fun _ _ => Return (mkResponse 200 ""))
                 (Caddy_default "h") (PStr "test.example.com")
                 (Some "host/0") (Some "host") []))
       = [mkRequest "PUT" "http://h:2019/id/host/host/0"
            [("Content-Type", "application/json")] (PStr wire)]
       /\ Json.loads (PStr wire) = Return (PStr "test.example.com").
Proof.
  assert (Hfail : Json.loads (PStr "test.example.com")
                  = Raise (JSONDecodeError "test.example.com"))
    by reflexivity.
  exact (conj Hfail
           (opaque_text_survives_wire (fun _ _ => Return (mkResponse 200 ""))
              (Caddy_default "h") "test.example.com" _
              (Some "host/0") (Some "host") [] Hfail)).
Defined.

(** X8: JSON text that denotes neither an object nor a string is sent as
    the parsed value, not as JSON: the list, number or boolean goes to the
    transport unencoded, and the text [null] gives a request without
    body. *)
Theorem parsed_value_sent_unencoded
    (remote : Trace -> Request -> result Response) (self : Caddy)
    (s : string) (v : PyVal) (path config_id : option string) (t : Trace)
    (Hparsed : Json.loads (PStr s) = Return v)
    (Hdict : type v <> dict_t) (Hstr : type v <> str_t) :
  sent_requests (snd (add remote self (PStr s) path config_id t))
  = (sent_requests t
     ++ [mkRequest "PUT" (_generate_url_by_path self path config_id)
           (headers_of self) v])%list.
Proof.
  assert (Hprep : _prepare_config_data self (PStr s) = Return v).
  { unfold _prepare_config_data. cbn [type pytype_eqb negb].
    now rewrite Hparsed. }
  rewrite (add_trace _ _ _ _ _ _ _ Hprep).
  apply execute_sent. now apply body_of_other.
Qed.

Lemma parsed_value_sent_unencoded_witness :
  Json.loads (PStr "null") = Return PNone
  /\ type PNone <> dict_t /\ type PNone <> str_t
  /\ sent_requests
       (snd (add (fun _ _ => Return (mkResponse 200 ""))
               (Caddy_default "h") (PStr "null")
               (Some "host/0") (Some "host") []))
     = [mkRequest "PUT" "http://h:2019/id/host/host/0"
          [("Content-Type", "application/json")] PNone].
Proof.
  assert (Hparsed : Json.loads (PStr "null") = Return PNone) by reflexivity.
  assert (Hdict : type PNone <> dict_t) by discriminate.
  assert (Hstr : type PNone <> str_t) by discriminate.
  exact (conj Hparsed (conj Hdict (conj Hstr
           (parsed_value_sent_unencoded
              (fun _ _ => Return (mkResponse 200 ""))
              (Caddy_default "h") "null" PNone
              (Some "host/0") (Some "host") [] Hparsed Hdict Hstr)))).
Defined.

(** X13: a dictionary that holds octets, at any depth of its lists and
    dictionaries, is refused by [json.dumps]: the transport call, and
    [add] on such a dictionary, end in [TypeError] before anything is
    printed or handed to [requests.request]. *)
Theorem mapping_with_octets_refused
    (remote : Trace -> Request -> result Response) (self : Caddy)
    (entries : list (string * PyVal))
    (Hoctets : holds_octets (PDict entries) = true) :
  forall (url method : string) (path config_id : option string) (t : Trace),
    _execute remote self url method (PDict entries) t = (Raise TypeError, t)
    /\ add remote self (PDict entries) path config_id t
       = (Raise TypeError, t).
Proof.
  intros url method path config_id t.
  assert (Hbody : body_of (PDict entries) = Raise TypeError).
  { pose proof (dumps_outcome (PDict entries)) as H.
    rewrite Hoctets in H. unfold body_of.
    cbn [type existsb pytype_eqb orb]. now rewrite H. }
  split.
  - now apply execute_not_encoded.
  - rewrite (add_trace _ _ _ _ _ _ _ (prepare_dict self entries)).
    now apply execute_not_encoded.
Qed.

Lemma mapping_with_octets_refused_witness :
  holds_octets (PDict [("a", PInt 1); ("b", PList [PBytes "x"])]) = true
  /\ add (fun _ _ => Return (mkResponse 200 "")) (Caddy_default "h")
       (PDict [("a", PInt 1); ("b", PList [PBytes "x"])])
       (Some "host/0") (Some "host") []
     = (Raise TypeError, []).
Proof.
  assert (Hoctets : holds_octets
                      (PDict [("a", PInt 1); ("b", PList [PBytes "x"])])
                    = true) by reflexivity.
  exact (conj Hoctets
           (proj2 (mapping_with_octets_refused
                     (fun _ _ => Return (mkResponse 200 ""))
                     (Caddy_default "h") _ Hoctets
                     "" "" (Some "host/0") (Some "host") []))).
Defined.

(** X5: [delete] with a missing or an empty path does not fail and does
    not address an empty location: it sends one DELETE request, without
    body, to the root collection [config/], the whole configuration. *)
Theorem delete_without_path_targets_root :
  forall (remote : Trace -> Request -> result Response) (self : Caddy)
         (t : Trace),
    sent_requests (snd (delete remote self None t))
    = (sent_requests t
       ++ [mkRequest "DELETE" (_generate_url self ++ "config/")
             (headers_of self) PNone])%list
    /\ sent_requests (snd (delete remote self (Some "") t))
       = (sent_requests t
          ++ [mkRequest "DELETE" (_generate_url self ++ "config/")
                (headers_of self) PNone])%list.
Proof.
  intros remote self t. unfold delete.
  rewrite !(execute_sent _ _ _ _ _ _ _ body_of_none).
  now rewrite !url_neither.
Qed.

(** ** Outcomes *)

(** X9: when the remote service answers with a status that
    [raise_for_status] lets through, every call that reaches it returns
    the body of the answer as it is: the transport call, the three
    operations that write, [delete] and [stop]. *)
Theorem operations_return_content
    (remote : Trace -> Request -> result Response) (self : Caddy)
    (res : Response)
    (Hremote : forall t' req, remote t' req = Return res)
    (Hstatus : status_passes (status_code res) = true) :
  (forall url method data wire t,
     body_of data = Return wire ->
     fst (_execute remote self url method data t) = Return (content res))
  /\ (forall cfg body wire path config_id t,
        _prepare_config_data self cfg = Return body ->
        body_of body = Return wire ->
        fst (load remote self cfg t) = Return (content res)
        /\ fst (add remote self cfg path config_id t) = Return (content res)
        /\ fst (update remote self cfg path config_id t)
           = Return (content res))
  /\ (forall path t,
        fst (delete remote self path t) = Return (content res)
        /\ fst (stop remote self t) = Return (content res)).
Proof.
  assert (Hexec : forall url method data wire t,
             body_of data = Return wire ->
             fst (_execute remote self url method data t)
             = Return (content res)).
  { intros url method data wire t Hbody.
    rewrite (execute_encoded _ _ _ _ _ _ _ Hbody). cbn [fst].
    now rewrite Hremote, Hstatus. }
  split; [exact Hexec | split].
  - intros cfg body wire path config_id t Hprep Hbody.
    unfold load, add, update.
    rewrite !(prepared_accepted _ _ _ _ _ _ _ Hprep).
    repeat split; now apply (Hexec _ _ _ wire).
  - intros path t. unfold delete, stop.
    split; now apply (Hexec _ _ _ PNone).
Qed.

Lemma operations_return_content_witness :
  (forall (t' : Trace) (req : Request),
     (fun _ _ => Return (mkResponse 200 "ok")) t' req
     = Return (mkResponse 200 "ok"))
  /\ status_passes (status_code (mkResponse 200 "ok")) = true
  /\ fst (stop (fun _ _ => Return (mkResponse 200 "ok"))
            (Caddy_default "h") [])
     = Return "ok".
Proof.
  assert (Hremote : forall (t' : Trace) (req : Request),
             (fun _ _ => Return (mkResponse 200 "ok")) t' req
             = Return (mkResponse 200 "ok")) by reflexivity.
  assert (Hstatus : status_passes (status_code (mkResponse 200 "ok"))
                    = true) by reflexivity.
  destruct (operations_return_content _ (Caddy_default "h") _
              Hremote Hstatus) as [_ [_ Hlast]].
  exact (conj Hremote (conj Hstatus (proj2 (Hlast None [])))).
Defined.

(** X14: under such an answer a read in raw mode returns the body as
    octets, whatever they are, and a read with decoding ends as the JSON
    decoder ends on the body: its value when the body is JSON. *)
Theorem read_returns_body
    (remote : Trace -> Request -> result Response) (self : Caddy)
    (res : Response)
    (Hremote : forall t' req, remote t' req = Return res)
    (Hstatus : status_passes (status_code res) = true) :
  forall (path config_id : option string) (t : Trace),
    fst (config remote self path config_id true t)
    = Return (PBytes (content res))
    /\ fst (config remote self path config_id false t)
       = Json.loads (PBytes (content res)).
Proof.
  intros path config_id t.
  split; now rewrite (config_outcome _ _ _ _ _ _ res Hremote Hstatus).
Qed.

Lemma read_returns_body_witness :
  (forall (t' : Trace) (req : Request),
     (fun _ _ => Return (mkResponse 200 ("{" ++ dq ++ "a" ++ dq ++ ": 1}")))
       t' req
     = Return (mkResponse 200 ("{" ++ dq ++ "a" ++ dq ++ ": 1}")))
  /\ status_passes
       (status_code (mkResponse 200 ("{" ++ dq ++ "a" ++ dq ++ ": 1}")))
     = true
  /\ fst (config
            (fun _ _ =>
               Return (mkResponse 200 ("{" ++ dq ++ "a" ++ dq ++ ": 1}")))
            (Caddy_default "h") None None false [])
     = Return (PDict [("a", PInt 1)]).
Proof.
  assert (Hremote : forall (t' : Trace) (req : Request),
             (fun _ _ =>
                Return (mkResponse 200 ("{" ++ dq ++ "a" ++ dq ++ ": 1}")))
               t' req
             = Return (mkResponse 200 ("{" ++ dq ++ "a" ++ dq ++ ": 1}")))
    by reflexivity.
  assert (Hstatus : status_passes
                      (status_code
                         (mkResponse 200 ("{" ++ dq ++ "a" ++ dq ++ ": 1}")))
                    = true) by reflexivity.
  exact (conj Hremote (conj Hstatus
           (proj2 (read_returns_body _ (Caddy_default "h") _
                     Hremote Hstatus None None [])))).
Defined.

(** X10: a failure of the connection surfaces as it is, once: the request
    is on the trace, the call ends in the transport's exception, and a
    read does not decode anything. *)
Theorem connection_failure_propagates
    (remote : Trace -> Request -> result Response) (self : Caddy) (e : exn)
    (Hremote : forall t' req, remote t' req = Raise e) :
  (forall url method data wire t,
     body_of data = Return wire ->
     _execute remote self url method data t
     = (Raise e,
        (t ++ [Printed wire;
               Sent (mkRequest method url (headers_of self) wire)])%list))
  /\ (forall path config_id raw t,
        fst (config remote self path config_id raw t) = Raise e).
Proof.
  assert (Hexec : forall url method data wire t,
             body_of data = Return wire ->
             _execute remote self url method data t
             = (Raise e,
                (t ++ [Printed wire;
                       Sent (mkRequest method url (headers_of self)
                               wire)])%list)).
  { intros url method data wire t Hbody.
    rewrite (execute_encoded _ _ _ _ _ _ _ Hbody).
    now rewrite Hremote, <- app_assoc. }
  split; [exact Hexec |].
  intros path config_id raw t. unfold config, bindIO.
  now rewrite (Hexec _ _ _ _ _ body_of_none).
Qed.

Lemma connection_failure_propagates_witness :
  (forall (t' : Trace) (req : Request),
     (fun _ _ => @Raise Response RequestException) t' req
     = Raise RequestException)
  /\ fst (config (fun _ _ => Raise RequestException) (Caddy_default "h")
            None None false [])
     = Raise RequestException.
Proof.
  assert (Hremote : forall (t' : Trace) (req : Request),
             (fun _ _ => @Raise Response RequestException) t' req
             = Raise RequestException) by reflexivity.
  exact (conj Hremote
           (proj2 (connection_failure_propagates _ (Caddy_default "h") _
                     Hremote) None None false [])).
Defined.

(** ** What the decoder hands to the encoder *)

Lemma existsb_rev_false {A} (f : A -> bool) (l : list A) :
  existsb f l = false -> existsb f (rev l) = false.
Proof.
  induction l as [| x l IH]; [reflexivity |].
  cbn [existsb rev]. rewrite existsb_app, orb_false_iff.
  intros [Hx Hl]. cbn [existsb]. now rewrite (IH Hl), Hx.
Qed.

Lemma dict_set_clean (k : string) (v : PyVal) (d : list (string * PyVal)) :
  holds_octets v = false ->
  existsb (fun kv => holds_octets (snd kv)) d = false ->
  existsb (fun kv => holds_octets (snd kv)) (Json.dict_set k v d) = false.
Proof.
  intros Hv. induction d as [| [k' v'] d IH]; cbn [Json.dict_set existsb snd].
  - intros _. now rewrite Hv.
  - rewrite orb_false_iff. intros [Hv' Hd].
    destruct (String.eqb k k'); cbn [existsb snd].
    + now rewrite Hv, Hd.
    + now rewrite Hv', (IH Hd).
Qed.

Lemma dict_of_pairs_clean (pairs : list (string * PyVal)) :
  existsb (fun kv => holds_octets (snd kv)) pairs = false ->
  existsb (fun kv => holds_octets (snd kv)) (Json.dict_of_pairs pairs) = false.
Proof.
  unfold Json.dict_of_pairs.
  assert (H : forall d,
             existsb (fun kv => holds_octets (snd kv)) d = false ->
             existsb (fun kv => holds_octets (snd kv)) pairs = false ->
             existsb (fun kv => holds_octets (snd kv))
               (fold_left (fun d kv => Json.dict_set (fst kv) (snd kv) d)
                  pairs d) = false).
  { induction pairs as [| [k v] pairs IH]; intros d Hd Hp; [exact Hd |].
    cbn [existsb snd] in Hp. apply orb_false_iff in Hp as [Hv Hp].
    cbn [fold_left fst snd]. apply IH; [| exact Hp].
    now apply dict_set_clean. }
  now apply H.
Qed.

Lemma scanner_no_octets (fuel : nat) (doc : string) :
  (forall s v r, Json.scan_once fuel doc s = Return (v, r) ->
                 holds_octets v = false)
  /\ (forall s acc v r,
        Json.array_items fuel doc s acc = Return (v, r) ->
        existsb holds_octets acc = false -> holds_octets v = false)
  /\ (forall s pairs v r,
        Json.object_items fuel doc s pairs = Return (v, r) ->
        existsb (fun kv => holds_octets (snd kv)) pairs = false ->
        holds_octets v = false).
Proof.
  induction fuel as [| fuel [IHs [IHa IHo]]].
  - repeat split; intros; discriminate.
  - split; [| split].
    + intros s v r H. simpl in H. unfold bind in H.
      repeat split_match H;
        first [ injection H as <- _; reflexivity
              | eapply IHa; [eassumption | reflexivity]
              | eapply IHo; [eassumption | reflexivity] ].
    + intros s acc v r H Hacc. simpl in H. unfold bind in H.
      repeat split_match H.
      * injection H as <- _. cbn [holds_octets].
        rewrite existsb_app, (existsb_rev_false _ _ Hacc). cbn [existsb].
        now erewrite (IHs _ _ _ ltac:(eassumption)).
      * eapply IHa; [eassumption |]. cbn [existsb].
        erewrite (IHs _ _ _ ltac:(eassumption)). exact Hacc.
    + intros s pairs v r H Hp. simpl in H. unfold bind in H.
      repeat split_match H.
      * injection H as <- _. cbn [holds_octets].
        apply dict_of_pairs_clean. rewrite existsb_app, Hp.
        cbn [existsb snd].
        now erewrite (IHs _ _ _ ltac:(eassumption)).
      * eapply IHo; [eassumption |]. rewrite existsb_app, Hp.
        cbn [existsb snd].
        now erewrite (IHs _ _ _ ltac:(eassumption)).
Qed.

Lemma loads_no_octets (s v : PyVal) :
  Json.loads s = Return v -> holds_octets v = false.
Proof.
  assert (Hdec : forall doc, Json.decode doc = Return v ->
                             holds_octets v = false).
  { intros doc. unfold Json.decode, bind.
    destruct (Json.scan_once _ _ _) as [[obj rest] | e |] eqn:Hs;
      try discriminate.
    destruct (Json.is_empty _); try discriminate.
    intros H. injection H as <-.
    exact (proj1 (scanner_no_octets _ _) _ _ _ Hs). }
  destruct s; simpl; try discriminate.
  - apply Hdec.
  - unfold bind. destruct (Json.decode_octets b); try discriminate.
    apply Hdec.
Qed.

Lemma body_of_clean (v : PyVal) :
  holds_octets v = false ->
  body_of v = Beyond \/ exists wire, body_of v = Return wire.
Proof.
  intros Hv. pose proof (dumps_outcome v) as Hd. rewrite Hv in Hd.
  unfold body_of. destruct (existsb _ _); [| right; now exists v].
  destruct Hd as [-> | [text ->]]; [now left |].
  right. now exists (PStr text).
Qed.

(** X15: a payload given as text or octets that the normaliser accepts
    never makes [json.dumps] raise: [add] does not end in an exception
    before the call of [requests.request], and it makes that call once,
    with the verb PUT, the resolved target and the encoded body.  (Only a
    dictionary given as such can hold what [json.dumps] refuses.) *)
Theorem accepted_text_reaches_transport
    (remote : Trace -> Request -> result Response) (self : Caddy)
    (cfg body : PyVal) (path config_id : option string) (t : Trace)
    (Hnotdict : type cfg <> dict_t)
    (Haccepted : _prepare_config_data self cfg = Return body) :
  (forall e : exn, body_of body <> Raise e)
  /\ (forall e : exn,
        add remote self cfg path config_id t <> (Raise e, t))
  /\ (forall wire : PyVal,
        body_of body = Return wire ->
        sent_requests (snd (add remote self cfg path config_id t))
        = (sent_requests t
           ++ [mkRequest "PUT" (_generate_url_by_path self path config_id)
                 (headers_of self) wire])%list).
Proof.
  assert (Hclean : holds_octets body = false).
  { revert Haccepted. unfold _prepare_config_data.
    destruct (pytype_eqb (type cfg) dict_t) eqn:Hd.
    { destruct cfg; simpl in *; try discriminate. congruence. }
    cbn [negb].
    destruct (Json.loads cfg) as [parsed | [doc | | | |] |] eqn:Hl;
      try discriminate.
    - intros H. injection H as <-. exact (loads_no_octets _ _ Hl).
    - destruct (pytype_eqb (type cfg) str_t) eqn:Hs; try discriminate.
      intros H. injection H as <-.
      destruct cfg; simpl in *; try discriminate. reflexivity. }
  rewrite (add_trace _ _ _ _ _ _ _ Haccepted).
  split; [| split].
  - intros e He.
    destruct (body_of_clean body Hclean) as [H | [wire H]]; congruence.
  - intros e He.
    destruct (body_of_clean body Hclean) as [H | [wire H]].
    + unfold _execute, bindIO, lift in He. rewrite H in He. discriminate.
    + rewrite (execute_encoded _ _ _ _ _ _ _ H) in He.
      apply (f_equal snd) in He. cbn [snd] in He.
      apply (f_equal (@List.length _)) in He.
      rewrite !length_app in He. simpl in He. lia.
  - intros wire Hbody. now apply execute_sent.
Qed.

Lemma accepted_text_reaches_transport_witness :
  type (PStr ("{" ++ dq ++ "a" ++ dq ++ ": [1, 2.5]}")) <> dict_t
  /\ _prepare_config_data (Caddy_default "h")
       (PStr ("{" ++ dq ++ "a" ++ dq ++ ": [1, 2.5]}"))
     = Return (PDict [("a", PList [PInt 1; PFloat "2.5"])])
  /\ sent_requests
       (snd (add (fun _ _ => Return (mkResponse 200 ""))
               (Caddy_default "h")
               (PStr ("{" ++ dq ++ "a" ++ dq ++ ": [1, 2.5]}"))
               (Some "host/0") (Some "host") []))
     = [mkRequest "PUT" "http://h:2019/id/host/host/0"
          [("Content-Type", "application/json")]
          (PStr ("{" ++ dq ++ "a" ++ dq ++ ": [1, 2.5]}"))].
Proof.
  assert (Hnotdict : type (PStr ("{" ++ dq ++ "a" ++ dq ++ ": [1, 2.5]}"))
                     <> dict_t) by discriminate.
  assert (Haccepted : _prepare_config_data (Caddy_default "h")
                        (PStr ("{" ++ dq ++ "a" ++ dq ++ ": [1, 2.5]}"))
                      = Return (PDict [("a", PList [PInt 1; PFloat "2.5"])]))
    by reflexivity.
  destruct (accepted_text_reaches_transport
              (fun _ _ => Return (mkResponse 200 ""))
              (Caddy_default "h") _ _ (Some "host/0") (Some "host") []
              Hnotdict Haccepted) as [_ [_ Hsent]].
  exact (conj Hnotdict (conj Haccepted (Hsent _ eq_refl))).
Defined.
